(** * Eufy adapter: device mirrors, capability mapping and the polling loop

    A shallow embedding of [pkg/eufy_device.py] (classes [EufyDevice],
    [EufySwitch], [EufyBulb]) together with the properties the
    specification states about it.

    - Python values that end up in a property are the sum type [value].
    - The lakeside device object ([eufy_dev]) is an interface, the class
      [RemoteHandle]: readable fields plus [connect] and [update], which
      return the exception they raise (if any) and the handle afterwards.
    - [self.properties] is a Python [dict]: an insertion-ordered association
      list with unique keys ([dict_set]).
    - Methods that call the handle run in a small state-and-exception monad
      [M] over the object under construction and an event log. *)

From Stdlib Require Import ZArith String Ascii List Lia.
From stdpp Require Import base strings gmap list.

Open Scope Z_scope.

(** ** Python values and exceptions *)

Inductive value : Type :=
| VBool (b : bool)
| VInt (n : Z)
| VStr (s : string).

Definition value_eqb (v w : value) : bool :=
  match v, w with
  | VBool a, VBool b => Bool.eqb a b
  | VInt a, VInt b => a =? b
  | VStr a, VStr b => String.eqb a b
  | _, _ => false
  end.

(** The exceptions the handle can raise, with the part of Python's class
    hierarchy that [poll] tests: [BrokenPipeError] and
    [ConnectionResetError] are [ConnectionError]s, hence [OSError]s, as is
    [TimeoutError]; [RuntimeError] is not an [OSError]. *)
Inductive exn : Type :=
| BrokenPipeError
| ConnectionResetError
| TimeoutError
| OSError
| RuntimeError.

(** [isinstance(e, BrokenPipeError)] *)
Definition is_BrokenPipeError (e : exn) : bool :=
  match e with
  | BrokenPipeError => true
  | _ => false
  end.

(** [isinstance(e, OSError)] *)
Definition is_OSError (e : exn) : bool :=
  match e with
  | BrokenPipeError | ConnectionResetError | TimeoutError | OSError => true
  | RuntimeError => false
  end.

(** ** The remote device handle *)

(** The [colors] attribute of the handle: missing altogether
    ([hasattr] is false), [None], or a triple of integers. *)
Inductive colors_attr : Type :=
| NoAttr
| PyNone
| Rgb (r g b : Z).

(** The readable fields are typed as the interface of the handle gives
    them: the power flag a boolean, brightness and relative temperature
    integers. [is_on] and [brightness] hand them on unconverted. *)
Class RemoteHandle (H : Type) : Type := {
  kind : H -> string;
  power : H -> bool;
  brightness : H -> Z;
  temperature : H -> Z;
  colors : H -> colors_attr;
  connect : H -> option exn * H;
  update : H -> option exn * H
}.

(** ** [str.format] with the spec [02X] *)

Definition hex_digit (d : Z) : ascii :=
  match d with
  | 0 => "0" | 1 => "1" | 2 => "2" | 3 => "3"
  | 4 => "4" | 5 => "5" | 6 => "6" | 7 => "7"
  | 8 => "8" | 9 => "9" | 10 => "A" | 11 => "B"
  | 12 => "C" | 13 => "D" | 14 => "E" | _ => "F"
  end%char.

(** Uppercase hexadecimal digits of a non-negative integer, most
    significant first, prepended to [acc]. *)
Fixpoint hex_digits_aux (fuel : nat) (n : Z) (acc : string) : string :=
  let acc' := String (hex_digit (n mod 16)) acc in
  match fuel with
  | O => acc'
  | S fuel' => if n <? 16 then acc' else hex_digits_aux fuel' (n / 16) acc'
  end.

Definition format_X (n : Z) : string :=
  hex_digits_aux (Z.to_nat (Z.log2 n)) n "".

Fixpoint zeros (k : nat) : string :=
  match k with
  | O => ""
  | S k' => String "0"%char (zeros k')
  end.

(** ['{:02X}'.format(n)]: the sign (for a negative [n]), then zeros up to a
    total width of two, then the digits. *)
Definition format_02X (n : Z) : string :=
  if n <? 0 then
    let ds := format_X (- n) in
    String "-"%char (zeros (1 - String.length ds) +:+ ds)
  else
    let ds := format_X n in
    zeros (2 - String.length ds) +:+ ds.

(** ['#{:02X}{:02X}{:02X}'.format(r, g, b)] *)
Definition format_color (r g b : Z) : string :=
  "#" +:+ format_02X r +:+ format_02X g +:+ format_02X b.

(** The two-digit encoding of a byte the specification calls [RR], [GG],
    [BB]: high nibble, then low nibble. *)
Definition hex_byte (n : Z) : string :=
  String (hex_digit (n / 16)) (String (hex_digit (n mod 16)) "").

(** The position of a character among the sixteen uppercase digits. *)
Fixpoint position_from (i : Z) (c : ascii) (digits : list ascii) : option Z :=
  match digits with
  | [] => None
  | x :: rest => if Ascii.eqb c x then Some i else position_from (i + 1) c rest
  end.

Definition hex_value (c : ascii) : option Z :=
  position_from 0 c (list_ascii_of_string "0123456789ABCDEF").

(** Reading a ["#RRGGBB"] string back into its triple. *)
Definition parse_color (s : string) : option (Z * Z * Z) :=
  match s with
  | String "#" (String r1 (String r0 (String g1 (String g0
      (String b1 (String b0 EmptyString)))))) =>
      match hex_value r1, hex_value r0, hex_value g1, hex_value g0,
            hex_value b1, hex_value b0 with
      | Some r1, Some r0, Some g1, Some g0, Some b1, Some b0 =>
          Some (16 * r1 + r0, 16 * g1 + g0, 16 * b1 + b0)
      | _, _, _, _, _, _ => None
      end
  | _ => None
  end.

(** ** Read accessors of [EufyDevice] and [EufyBulb] *)

Section Accessors.
Context {H : Type} `{RemoteHandle H}.

(** The converter of [pkg/util.py], which [color_temp] calls. *)
Variable relative_temp_to_kelvin : Z -> Z.

Definition is_on (h : H) : bool := power h.

Definition is_color (h : H) : bool := String.eqb (kind h) "T1013".

Definition is_variable_color_temp (h : H) : bool :=
  String.eqb (kind h) "T1012" || String.eqb (kind h) "T1013".

Definition color_temp (h : H) : Z := relative_temp_to_kelvin (temperature h).

Definition color (h : H) : string :=
  match colors h with
  | NoAttr => "#000000"
  | PyNone => "#000000"
  | Rgb r g b => format_color r g b
  end.

Definition color_mode (h : H) : string :=
  if String.eqb (color h) "#000000" then "temperature" else "color".

Definition bulb_brightness (h : H) : Z := brightness h.
End Accessors.

(** ** Properties and the device object *)

(** The metadata dictionary passed to a property; a key that the source
    leaves out is [None]. *)
Record Description : Type := {
  d_at_type : string;
  d_title : string;
  d_type : string;
  d_unit : option string;
  d_minimum : option Z;
  d_maximum : option Z;
  d_enum : option (list string);
  d_readOnly : option bool
}.

(** Modelled from the spec: the classes [EufySwitchProperty] and
    [EufyBulbProperty] of [pkg/eufy_property.py] ("Property Mirror": a name,
    a metadata descriptor and the last-published value; the fourth
    constructor argument is the initial value). *)
Record Property : Type := {
  prop_name : string;
  prop_description : Description;
  prop_value : value
}.

(** A Python [dict] with string keys: [d[k] = v] replaces the value of an
    existing key in place and appends a new key at the end. *)
Fixpoint dict_set {A : Type} (k : string) (v : A) (d : list (string * A))
  : list (string * A) :=
  match d with
  | [] => [(k, v)]
  | (k', v') :: d' =>
      if String.eqb k k' then (k, v) :: d' else (k', v') :: dict_set k v d'
  end.

Fixpoint dict_get {A : Type} (k : string) (d : list (string * A)) : option A :=
  match d with
  | [] => None
  | (k', v') :: d' => if String.eqb k k' then Some v' else dict_get k d'
  end.

Definition dict_keys {A : Type} (d : list (string * A)) : list string :=
  map fst d.

Definition dict_values {A : Type} (d : list (string * A)) : list A :=
  map snd d.

(** What the program does that an observer can see, in order. *)
Inductive event : Type :=
| EConnect (raised : option exn)
| EUpdate (raised : option exn)
| EThreadStart
| ENewProperty (key : string) (v : value)
| ESleep (seconds : Z)
| ERefresh (key : string)
| ENotify (key : string) (v : value).

Inductive res (A : Type) : Type :=
| Ok (a : A)
| Raise (e : exn).
Arguments Ok {A} a.
Arguments Raise {A} e.

Definition _POLL_INTERVAL : Z := 5.

Section Device.
Context {H : Type} `{RemoteHandle H}.

(** Names imported from [pkg/util.py]. *)
Variables MIN_TEMPERATURE MAX_TEMPERATURE : Z.
Variable relative_temp_to_kelvin : Z -> Z.

Record Device : Type := {
  dev_id : string;
  eufy_dev : H;
  description : string;
  name : string;
  _type : list string;
  properties : list (string * Property)
}.

Definition set_eufy_dev (h : H) (d : Device) : Device :=
  {| dev_id := dev_id d; eufy_dev := h; description := description d;
     name := name d; _type := _type d; properties := properties d |}.

Definition set_description (s : string) (d : Device) : Device :=
  {| dev_id := dev_id d; eufy_dev := eufy_dev d; description := s;
     name := name d; _type := _type d; properties := properties d |}.

Definition set_name (s : string) (d : Device) : Device :=
  {| dev_id := dev_id d; eufy_dev := eufy_dev d;
     description := description d;
     name := s; _type := _type d; properties := properties d |}.

Definition set_type (t : list string) (d : Device) : Device :=
  {| dev_id := dev_id d; eufy_dev := eufy_dev d;
     description := description d;
     name := name d; _type := t; properties := properties d |}.

Definition set_properties (p : list (string * Property)) (d : Device)
  : Device :=
  {| dev_id := dev_id d; eufy_dev := eufy_dev d;
     description := description d;
     name := name d; _type := _type d; properties := p |}.

(** The state a method runs in: the object [self] and the event log. *)
Record World : Type := {
  self : Device;
  log : list event
}.

(** ** The monad of methods: state plus exceptions *)

Definition M (A : Type) : Type := World -> res A * World.

Definition ret {A : Type} (a : A) : M A := fun w => (Ok a, w).

Definition bind {A B : Type} (m : M A) (k : A -> M B) : M B :=
  fun w =>
    match m w with
    | (Ok a, w') => k a w'
    | (Raise e, w') => (Raise e, w')
    end.

Definition emit (ev : event) : M unit :=
  fun w => (Ok tt, {| self := self w; log := log w ++ [ev] |}).

Definition get_self : M Device := fun w => (Ok (self w), w).

Definition modify_self (f : Device -> Device) : M unit :=
  fun w => (Ok tt, {| self := f (self w); log := log w |}).

(** [try: body / except <class>: handler], the class given by its
    [isinstance] test. *)
Definition try_except {A : Type} (body : M A) (catches : exn -> bool)
    (handler : M A) : M A :=
  fun w =>
    match body w with
    | (Ok a, w') => (Ok a, w')
    | (Raise e, w') => if catches e then handler w' else (Raise e, w')
    end.

(** [for x in xs: body x] *)
Fixpoint for_each {A : Type} (xs : list A) (body : A -> M unit) : M unit :=
  match xs with
  | [] => ret tt
  | x :: xs' => bind (body x) (fun _ => for_each xs' body)
  end.

Notation "x <- c1 ;; c2" := (bind c1 (fun x => c2))
  (at level 100, c1 at next level, right associativity).
Notation "c1 ;; c2" := (bind c1 (fun _ => c2))
  (at level 100, right associativity).

(** [self.eufy_dev.connect()] *)
Definition call_connect : M unit :=
  fun w =>
    let '(r, h') := connect (eufy_dev (self w)) in
    let w' := {| self := set_eufy_dev h' (self w);
                 log := log w ++ [EConnect r] |} in
    match r with
    | None => (Ok tt, w')
    | Some e => (Raise e, w')
    end.

(** [self.eufy_dev.update()] *)
Definition call_update : M unit :=
  fun w =>
    let '(r, h') := update (eufy_dev (self w)) in
    let w' := {| self := set_eufy_dev h' (self w);
                 log := log w ++ [EUpdate r] |} in
    match r with
    | None => (Ok tt, w')
    | Some e => (Raise e, w')
    end.

(** ** Construction *)

(** The object as [Device.__init__] of the gateway library leaves it: the
    identifier stored and an empty [properties] dictionary. The handle is
    the constructor argument that [EufyDevice.__init__] stores next. *)
Definition Device__init__ (_id : string) (h : H) : World :=
  {| self := {| dev_id := _id; eufy_dev := h; description := "";
                name := ""; _type := []; properties := [] |};
     log := [] |}.

(** Python truthiness of the [name] argument ([None] or a string). *)
Definition truthy (s : option string) : bool :=
  match s with
  | None => false
  | Some s' => negb (String.eqb s' "")
  end.

(** Body of [EufyDevice.__init__] after the base constructor. *)
Definition EufyDevice__init__ (nm : option string) : M unit :=
  modify_self (set_type []) ;;
  d <- get_self ;;
  modify_self (set_description (kind (eufy_dev d))) ;;
  d <- get_self ;;
  modify_self (set_name
    (match nm with
     | Some s => if truthy nm then s else description d
     | None => description d
     end)) ;;
  call_connect ;;
  call_update ;;
  emit EThreadStart.

(** [self.properties[key] = Property(self, key, descr, v)] *)
Definition add_property (key : string) (descr : Description) (v : value)
  : M unit :=
  emit (ENewProperty key v) ;;
  modify_self (fun d =>
    set_properties
      (dict_set key {| prop_name := key; prop_description := descr;
                       prop_value := v |} (properties d)) d).

Definition on_description : Description :=
  {| d_at_type := "OnOffProperty"; d_title := "On/Off";
     d_type := "boolean"; d_unit := None; d_minimum := None;
     d_maximum := None; d_enum := None; d_readOnly := None |}.

Definition color_description : Description :=
  {| d_at_type := "ColorProperty"; d_title := "Color";
     d_type := "string"; d_unit := None; d_minimum := None;
     d_maximum := None; d_enum := None; d_readOnly := None |}.

Definition colorTemperature_description : Description :=
  {| d_at_type := "ColorTemperatureProperty";
     d_title := "Color Temperature";
     d_type := "integer"; d_unit := Some "kelvin";
     d_minimum := Some MIN_TEMPERATURE;
     d_maximum := Some MAX_TEMPERATURE;
     d_enum := None; d_readOnly := None |}.

Definition colorMode_description : Description :=
  {| d_at_type := "ColorModeProperty"; d_title := "Color Mode";
     d_type := "string"; d_unit := None; d_minimum := None;
     d_maximum := None; d_enum := Some ["color"; "temperature"];
     d_readOnly := Some true |}.

Definition level_description : Description :=
  {| d_at_type := "BrightnessProperty"; d_title := "Brightness";
     d_type := "integer"; d_unit := Some "percent";
     d_minimum := Some 0; d_maximum := Some 100;
     d_enum := None; d_readOnly := None |}.

Definition extend_type (ts : list string) : M unit :=
  modify_self (fun d => set_type (_type d ++ ts) d).

Definition when (b : bool) (m : M unit) : M unit :=
  if b then m else ret tt.

Definition EufySwitch__init__ (nm : option string) : M unit :=
  EufyDevice__init__ nm ;;
  extend_type ["OnOffSwitch"; "SmartPlug"] ;;
  d <- get_self ;;
  add_property "on" on_description (VBool (is_on (eufy_dev d))).

Definition EufyBulb__init__ (nm : option string) : M unit :=
  EufyDevice__init__ nm ;;
  extend_type ["OnOffSwitch"; "Light"] ;;
  d <- get_self ;;
  when (is_color (eufy_dev d))
    (extend_type ["ColorControl"] ;;
     d <- get_self ;;
     add_property "color" color_description
       (VStr (color (eufy_dev d)))) ;;
  d <- get_self ;;
  when (is_variable_color_temp (eufy_dev d))
    (extend_type ["ColorControl"] ;;
     d <- get_self ;;
     add_property "colorTemperature" colorTemperature_description
       (VInt (color_temp relative_temp_to_kelvin (eufy_dev d)))) ;;
  d <- get_self ;;
  when (is_color (eufy_dev d) && is_variable_color_temp (eufy_dev d))
    (d <- get_self ;;
     add_property "colorMode" colorMode_description
       (VStr (color_mode (eufy_dev d)))) ;;
  d <- get_self ;;
  add_property "level" level_description
    (VInt (bulb_brightness (eufy_dev d))) ;;
  d <- get_self ;;
  add_property "on" on_description (VBool (is_on (eufy_dev d))).

(** [EufySwitch(adapter, _id, name, eufy_dev)] and
    [EufyBulb(adapter, _id, name, eufy_dev)]: the result of the
    constructor and the object it worked on. *)
Definition EufySwitch (_id : string) (nm : option string) (h : H)
  : res unit * World :=
  EufySwitch__init__ nm (Device__init__ _id h).

Definition EufyBulb (_id : string) (nm : option string) (h : H)
  : res unit * World :=
  EufyBulb__init__ nm (Device__init__ _id h).

(** ** Refreshing a property *)

(** Modelled from the spec: the accessor a property of
    [pkg/eufy_property.py] is bound to, chosen by its name
    ("readCurrentValue": the bound field of the handle with its
    conversion applied). *)
Definition read_current_value (key : string) (h : H) : option value :=
  if String.eqb key "on" then Some (VBool (is_on h))
  else if String.eqb key "level" then Some (VInt (bulb_brightness h))
  else if String.eqb key "color" then Some (VStr (color h))
  else if String.eqb key "colorTemperature" then
    Some (VInt (color_temp relative_temp_to_kelvin h))
  else if String.eqb key "colorMode" then Some (VStr (color_mode h))
  else None.

Definition set_value (v : value) (p : Property) : Property :=
  {| prop_name := prop_name p; prop_description := prop_description p;
     prop_value := v |}.

(** Modelled from the spec: [update] of the property classes of
    [pkg/eufy_property.py] ("refresh": read the current value; if it
    differs from the last-published one, store it and notify the
    registry; otherwise do nothing). *)
Definition prop_update (key : string) : M unit :=
  emit (ERefresh key) ;;
  d <- get_self ;;
  match dict_get key (properties d),
        read_current_value key (eufy_dev d) with
  | Some p, Some v =>
      if value_eqb v (prop_value p) then ret tt
      else
        modify_self
          (set_properties (dict_set key (set_value v p) (properties d))) ;;
        emit (ENotify key v)
  | _, _ => ret tt
  end.

(** ** The polling loop *)

(** How the [try] statement of a cycle ends: control falls through to the
    [for] loop, or [continue] was executed. *)
Inductive ctl : Type :=
| Fallthrough
| Continue.

(** [time.sleep(secs)] *)
Definition sleep (secs : Z) : M unit := emit (ESleep secs).

(** The [try] statement of [poll], lines 47-54. *)
Definition poll_try : M ctl :=
  try_except (call_update ;; ret Fallthrough) is_BrokenPipeError
    (try_except (call_connect ;; call_update ;; ret Fallthrough)
       is_OSError (ret Continue)).

(** [for prop in self.properties.values(): prop.update()] *)
Definition refresh_all : M unit :=
  d <- get_self ;;
  for_each (dict_keys (properties d)) prop_update.

(** One pass through the body of [while True]. *)
Definition poll_cycle : M unit :=
  sleep _POLL_INTERVAL ;;
  c <- poll_try ;;
  match c with
  | Continue => ret tt
  | Fallthrough => refresh_all
  end.

(** [poll], observed for [cycles] passes of [while True]. The loop has no
    [break] and no [return]: [Ok tt] says that the passes were completed
    and control is back at the head of the loop, [Raise e] that the
    exception [e] left the loop (and the thread) during one of them. *)
Fixpoint poll (cycles : nat) : M unit :=
  match cycles with
  | O => ret tt
  | S n => poll_cycle ;; poll n
  end.

End Device.

Arguments Device H : clear implicits.
Arguments World H : clear implicits.

(** ** A scripted handle *)

(** What the remote device answers to one [update]: a failure, or fresh
    readings. *)
Inductive reply : Type :=
| Fails (e : exn)
| Reports (p : bool) (b t : Z) (c : colors_attr).

(** A handle whose network is a script: the outcomes of the coming
    [connect] calls and the answers to the coming [update] calls. When a
    script is used up, the call succeeds and changes nothing. *)
Record Scripted : Type := {
  s_kind : string;
  s_power : bool;
  s_brightness : Z;
  s_temperature : Z;
  s_colors : colors_attr;
  s_connects : list (option exn);
  s_updates : list reply
}.

Definition scripted_connect (s : Scripted) : option exn * Scripted :=
  match s_connects s with
  | [] => (None, s)
  | r :: rest =>
      (r, {| s_kind := s_kind s; s_power := s_power s;
             s_brightness := s_brightness s;
             s_temperature := s_temperature s; s_colors := s_colors s;
             s_connects := rest; s_updates := s_updates s |})
  end.

Definition scripted_update (s : Scripted) : option exn * Scripted :=
  match s_updates s with
  | [] => (None, s)
  | Fails e :: rest =>
      (Some e, {| s_kind := s_kind s; s_power := s_power s;
                  s_brightness := s_brightness s;
                  s_temperature := s_temperature s; s_colors := s_colors s;
                  s_connects := s_connects s; s_updates := rest |})
  | Reports p b t c :: rest =>
      (None, {| s_kind := s_kind s; s_power := p; s_brightness := b;
                s_temperature := t; s_colors := c;
                s_connects := s_connects s; s_updates := rest |})
  end.

#[export] Instance Scripted_handle : RemoteHandle Scripted := {|
  kind := s_kind;
  power := s_power;
  brightness := s_brightness;
  temperature := s_temperature;
  colors := s_colors;
  connect := scripted_connect;
  update := scripted_update
|}.

(** ** The unit converter *)

Module Util.
Section Converter.
(** The vendor's relative range and the two Kelvin bounds of
    [pkg/util.py]. *)
Variables REL_MIN REL_MAX MIN_TEMPERATURE MAX_TEMPERATURE : Z.

Definition clamp (x : Z) : Z := Z.max REL_MIN (Z.min REL_MAX x).

(** Modelled from the spec: [relative_temp_to_kelvin] of [pkg/util.py]
    ("Unit Converter": a deterministic linear mapping from the vendor's
    relative range to an integer number of Kelvin in
    [[MIN_TEMPERATURE, MAX_TEMPERATURE]], clamping out-of-range input). *)
Definition relative_temp_to_kelvin (relative : Z) : Z :=
  MIN_TEMPERATURE
  + (clamp relative - REL_MIN) * (MAX_TEMPERATURE - MIN_TEMPERATURE)
    / (REL_MAX - REL_MIN).
End Converter.
End Util.

(** ** Sample devices *)

(** A scripted handle with the given model identifier, colors and scripts;
    the other readings are fixed. *)
Definition sample_handle (k : string) (c : colors_attr)
    (cs : list (option exn)) (us : list reply) : Scripted :=
  {| s_kind := k; s_power := true; s_brightness := 40;
     s_temperature := 50; s_colors := c;
     s_connects := cs; s_updates := us |}.

(** A sample instance of the converter: relative range [[0, 100]], Kelvin
    range [[2700, 6500]]. *)
Definition sample_kelvin : Z -> Z :=
  Util.relative_temp_to_kelvin 0 100 2700 6500.

(** A world in which [self] is an already constructed device. *)
Definition world_of (r : res unit * World Scripted) : World Scripted :=
  {| self := self (snd r); log := [] |}.

(** ** Vocabulary for the statements *)

(** The two device classes and their constructors. *)
Inductive device_class : Type :=
| Switch
| Bulb.

Definition construct {H : Type} `{RemoteHandle H}
    (MIN_TEMPERATURE MAX_TEMPERATURE : Z) (relative_temp_to_kelvin : Z -> Z)
    (cls : device_class) (_id : string) (nm : option string) (h : H)
  : res unit * World H :=
  match cls with
  | Switch => EufySwitch _id nm h
  | Bulb =>
      EufyBulb MIN_TEMPERATURE MAX_TEMPERATURE relative_temp_to_kelvin
        _id nm h
  end.

Definition mk_property (key : string) (descr : Description) (v : value)
  : string * Property :=
  (key, {| prop_name := key; prop_description := descr; prop_value := v |}).

(** The dictionary [EufySwitch.__init__] fills, as one expression over the
    handle it reads. *)
Definition switch_properties {H : Type} `{RemoteHandle H} (h : H)
  : list (string * Property) :=
  [mk_property "on" on_description (VBool (is_on h))].

(** The dictionary [EufyBulb.__init__] fills, as one expression over the
    handle it reads: the three guarded entries, then [level] and [on]. *)
Definition bulb_properties {H : Type} `{RemoteHandle H}
    (MIN_TEMPERATURE MAX_TEMPERATURE : Z) (relative_temp_to_kelvin : Z -> Z)
    (h : H) : list (string * Property) :=
  (if is_color h then
     [mk_property "color" color_description (VStr (color h))]
   else []) ++
  (if is_variable_color_temp h then
     [mk_property "colorTemperature"
        (colorTemperature_description MIN_TEMPERATURE MAX_TEMPERATURE)
        (VInt (color_temp relative_temp_to_kelvin h))]
   else []) ++
  (if is_color h && is_variable_color_temp h then
     [mk_property "colorMode" colorMode_description (VStr (color_mode h))]
   else []) ++
  [mk_property "level" level_description (VInt (bulb_brightness h));
   mk_property "on" on_description (VBool (is_on h))].

Definition class_properties {H : Type} `{RemoteHandle H}
    (MIN_TEMPERATURE MAX_TEMPERATURE : Z) (relative_temp_to_kelvin : Z -> Z)
    (cls : device_class) (h : H) : list (string * Property) :=
  match cls with
  | Switch => switch_properties h
  | Bulb =>
      bulb_properties MIN_TEMPERATURE MAX_TEMPERATURE
        relative_temp_to_kelvin h
  end.

(** The capability table of the specification: the property names of a
    device class and model identifier. *)
Definition capability_keys (cls : device_class) (model : string)
  : gset string :=
  match cls with
  | Switch => {[ "on" ]}
  | Bulb =>
      if String.eqb model "T1013" then
        {[ "on"; "level"; "color"; "colorTemperature"; "colorMode" ]}
      else if String.eqb model "T1012" then
        {[ "on"; "level"; "colorTemperature" ]}
      else {[ "on"; "level" ]}
  end.

(** The event of constructing one entry of a property dictionary. *)
Definition construction_event (kp : string * Property) : event :=
  ENewProperty (fst kp) (prop_value (snd kp)).

(** Classes of events. *)
Definition is_handle_call (ev : event) : bool :=
  match ev with
  | EConnect _ | EUpdate _ => true
  | _ => false
  end.

Definition is_refresh_event (ev : event) : bool :=
  match ev with
  | ERefresh _ | ENotify _ _ => true
  | _ => false
  end.

(** An exception that [poll] does not catch, with the handle calls of the
    cycle it was raised in: a first [update] raising anything but
    [BrokenPipeError], or a recovery call raising anything but an
    [OSError]. *)
Definition escapes (e : exn) (calls : list event) : Prop :=
  (calls = [EUpdate (Some e)] /\ is_BrokenPipeError e = false) \/
  (calls = [EUpdate (Some BrokenPipeError); EConnect (Some e)] /\
   is_OSError e = false) \/
  (calls = [EUpdate (Some BrokenPipeError); EConnect None; EUpdate (Some e)]
   /\ is_OSError e = false).

(** A property whose stored value is the one its accessor reads now. *)
Definition in_sync {H : Type} `{RemoteHandle H}
    (relative_temp_to_kelvin : Z -> Z) (key : string) (d : Device H) : Prop :=
  forall p v,
    dict_get key (properties d) = Some p ->
    read_current_value relative_temp_to_kelvin key (eufy_dev d) = Some v ->
    prop_value p = v.

(** What a run of refreshes of the properties [keys] leaves alone, what it
    logs and what it achieves, between the worlds before and after. *)
Record refreshed {H : Type} `{RemoteHandle H}
    (relative_temp_to_kelvin : Z -> Z)
    (keys : list string) (w w' : World H) : Prop := {
  rf_handle : eufy_dev (self w') = eufy_dev (self w);
  rf_keys :
    dict_keys (properties (self w')) = dict_keys (properties (self w));
  rf_log :
    exists evs,
      log w' = log w ++ evs /\
      forallb is_refresh_event evs = true /\
      (forall k, In k keys -> In (ERefresh k) evs) /\
      (evs = [] -> properties (self w') = properties (self w));
  rf_sync :
    forall k, In k keys -> in_sync relative_temp_to_kelvin k (self w');
  rf_kept :
    forall k, in_sync relative_temp_to_kelvin k (self w) ->
              in_sync relative_temp_to_kelvin k (self w')
}.

(** The world of a cycle once it has slept and made the handle calls
    [calls], which left the handle as [h']. *)
Definition after_calls {H : Type} (h' : H) (calls : list event)
    (w : World H) : World H :=
  {| self := set_eufy_dev h' (self w);
     log := log w ++ ESleep _POLL_INTERVAL :: calls |}.

(** Sample runs: the constructor of class [cls] on a scripted handle (with
    the sample bounds and converter), and the constructed device at the
    start of its polling thread. *)
Definition sample_construct (cls : device_class) (k : string)
    (c : colors_attr) (cs : list (option exn)) (us : list reply)
  : res unit * World Scripted :=
  construct 2700 6500 sample_kelvin cls "device-1" (Some "Lamp")
    (sample_handle k c cs us).

Definition sample_world (cls : device_class) (k : string)
    (c : colors_attr) (cs : list (option exn)) (us : list reply)
  : World Scripted :=
  world_of (sample_construct cls k c cs us).

(** Three full-color bulbs at the start of their polling threads. The
    first answer to [update] is used up by the constructor. In the first
    cycle, [recovering_bulb] loses the connection and gets it back,
    [unreachable_bulb] loses it and times out on the retry, and
    [resetting_bulb] has its connection reset. *)
Definition recovering_bulb : World Scripted :=
  sample_world Bulb "T1013" (Rgb 255 0 0) []
    [Reports true 40 50 (Rgb 255 0 0); Fails BrokenPipeError;
     Reports false 10 20 (Rgb 0 0 255)].

Definition unreachable_bulb : World Scripted :=
  sample_world Bulb "T1013" (Rgb 255 0 0) []
    [Reports true 40 50 (Rgb 255 0 0); Fails BrokenPipeError;
     Fails TimeoutError].

Definition resetting_bulb : World Scripted :=
  sample_world Bulb "T1013" (Rgb 255 0 0) []
    [Reports true 40 50 (Rgb 255 0 0); Fails ConnectionResetError].

(** A bulb whose second cycle loses the connection and whose reconnect
    raises an exception that is not an [OSError]. *)
Definition faulty_bulb : World Scripted :=
  sample_world Bulb "T1013" (Rgb 255 0 0) [None; Some RuntimeError]
    [Reports true 40 50 (Rgb 255 0 0); Reports true 41 50 (Rgb 255 0 0);
     Fails BrokenPipeError].

(** The dictionary of the device has the key [key], and the property
    stored there holds the value [v]. *)
Definition holds_value {H : Type} (w : World H) (key : string) (v : value)
  : Prop :=
  exists p,
    dict_get key (properties (self w)) = Some p /\ prop_value p = v.

(** Two bulbs whose first cycle loses the connection and whose recovery
    raises an exception that is not an [OSError]: from [connect], and from
    the second [update]. *)
Definition failing_reconnect_bulb : World Scripted :=
  sample_world Bulb "T1013" (Rgb 255 0 0) [None; Some RuntimeError]
    [Reports true 40 50 (Rgb 255 0 0); Fails BrokenPipeError].

Definition failing_retry_bulb : World Scripted :=
  sample_world Bulb "T1013" (Rgb 255 0 0) []
    [Reports true 40 50 (Rgb 255 0 0); Fails BrokenPipeError;
     Fails RuntimeError].

(** The handle calls one cycle of [poll] can make: one [update]; or an
    [update] that raised [BrokenPipeError] and a [connect]; or those two,
    the [connect] having succeeded, and a second [update]. *)
Definition call_shape (calls : list event) : Prop :=
  (exists r, calls = [EUpdate r]) \/
  (exists r, calls = [EUpdate (Some BrokenPipeError); EConnect r]) \/
  (exists r,
     calls = [EUpdate (Some BrokenPipeError); EConnect None; EUpdate r]).

(** What a property is apart from its value, and what a device is apart
    from its handle and the values of its properties. *)
Definition property_frame (kp : string * Property)
  : string * string * Description :=
  (fst kp, prop_name (snd kp), prop_description (snd kp)).

Definition values_only {H : Type} (d d' : Device H) : Prop :=
  dev_id d' = dev_id d /\
  name d' = name d /\
  description d' = description d /\
  _type d' = _type d /\
  map property_frame (properties d') = map property_frame (properties d).

Definition is_sleep (ev : event) : bool :=
  match ev with
  | ESleep _ => true
  | _ => false
  end.

Definition is_refresh_start (ev : event) : bool :=
  match ev with
  | ERefresh _ => true
  | _ => false
  end.

(** * Properties *)

(** ** Formatting *)

Example format_02X_255 : format_02X 255 = "FF"%string.
Proof. reflexivity. Qed.

Example format_02X_10 : format_02X 10 = "0A"%string.
Proof. reflexivity. Qed.

Example format_02X_wide : format_02X 256 = "100"%string.
Proof. reflexivity. Qed.

Example format_02X_negative : format_02X (-5) = "-5"%string.
Proof. reflexivity. Qed.

Lemma append_String (c : ascii) (s t : string) :
  String c s +:+ t = String c (s +:+ t).
Proof. reflexivity. Qed.

Lemma append_empty (t : string) : "" +:+ t = t.
Proof. reflexivity. Qed.

Lemma nibble_cases (d : Z) :
  0 <= d < 16 ->
  d = 0 \/ d = 1 \/ d = 2 \/ d = 3 \/ d = 4 \/ d = 5 \/ d = 6 \/ d = 7 \/
  d = 8 \/ d = 9 \/ d = 10 \/ d = 11 \/ d = 12 \/ d = 13 \/ d = 14 \/ d = 15.
Proof. lia. Qed.

Lemma hex_value_digit (d : Z) :
  0 <= d < 16 -> hex_value (hex_digit d) = Some d.
Proof.
  intros Hd. pose proof (nibble_cases d Hd) as Hc.
  repeat (destruct Hc as [-> | Hc]; [reflexivity |]).
  subst d. reflexivity.
Qed.

Lemma hex_digits_aux_small (fuel : nat) (n : Z) (acc : string) :
  0 <= n < 16 -> hex_digits_aux fuel n acc = String (hex_digit n) acc.
Proof.
  intros Hn. rewrite <- (Z.mod_small n 16) at 2 by lia.
  destruct fuel as [| fuel]; simpl; [reflexivity |].
  destruct (Z.ltb_spec n 16); [reflexivity | lia].
Qed.

(** In the byte range the Python format is the two-nibble encoding. *)
Lemma format_02X_byte (n : Z) : 0 <= n <= 255 -> format_02X n = hex_byte n.
Proof.
  intros Hn. unfold format_02X, format_X, hex_byte.
  destruct (Z.ltb_spec n 0) as [Hneg | _]; [lia |].
  destruct (Z_lt_le_dec n 16) as [Hlt | Hge].
  - rewrite hex_digits_aux_small by lia.
    rewrite Z.div_small by lia. rewrite Z.mod_small by lia. reflexivity.
  - assert (Hlog : 4 <= Z.log2 n).
    { change 4 with (Z.log2 16). apply Z.log2_le_mono. lia. }
    destruct (Z.to_nat (Z.log2 n)) as [| fuel] eqn:Hfuel; [lia |].
    simpl hex_digits_aux.
    destruct (Z.ltb_spec n 16) as [Hlt | _]; [lia |].
    assert (Hq : 0 <= n / 16 < 16).
    { split; [apply Z.div_pos; lia | apply Z.div_lt_upper_bound; lia]. }
    rewrite hex_digits_aux_small by exact Hq. reflexivity.
Qed.

Lemma format_color_bytes (r g b : Z) :
  0 <= r <= 255 -> 0 <= g <= 255 -> 0 <= b <= 255 ->
  format_color r g b = "#" +:+ hex_byte r +:+ hex_byte g +:+ hex_byte b.
Proof.
  intros Hr Hg Hb. unfold format_color.
  now rewrite !format_02X_byte by assumption.
Qed.

Lemma parse_format_color (r g b : Z) :
  0 <= r <= 255 -> 0 <= g <= 255 -> 0 <= b <= 255 ->
  parse_color (format_color r g b) = Some (r, g, b).
Proof.
  intros Hr Hg Hb. rewrite format_color_bytes by assumption.
  unfold hex_byte, parse_color.
  repeat (rewrite append_String || rewrite append_empty).
  assert (Hnib : forall n, 0 <= n <= 255 ->
            0 <= n / 16 < 16 /\ 0 <= n mod 16 < 16 /\
            16 * (n / 16) + n mod 16 = n).
  { intros n Hn. repeat split.
    - apply Z.div_pos; lia.
    - apply Z.div_lt_upper_bound; lia.
    - apply Z.mod_pos_bound; lia.
    - apply Z.mod_pos_bound; lia.
    - symmetry. apply Z.div_mod. lia. }
  destruct (Hnib r Hr) as (Hr1 & Hr0 & Er).
  destruct (Hnib g Hg) as (Hg1 & Hg0 & Eg).
  destruct (Hnib b Hb) as (Hb1 & Hb0 & Eb).
  rewrite !hex_value_digit by assumption.
  now rewrite Er, Eg, Eb.
Qed.

(** ** Color and color mode *)

Section AccessorFacts.
Context {H : Type} `{RemoteHandle H}.

Lemma color_mode_cases (h : H) :
  (color h = "#000000" /\ color_mode h = "temperature") \/
  (color h <> "#000000" /\ color_mode h = "color").
Proof.
  unfold color_mode.
  destruct (String.eqb_spec (color h) "#000000") as [E | E]; auto.
Qed.

(** C4. For every handle state, [color_mode] returns ["temperature"]
    exactly when [color] returns ["#000000"], and ["color"] whenever
    [color] returns anything else. *)
Theorem color_mode_sentinel_law (h : H) :
  (color_mode h = "temperature" <-> color h = "#000000") /\
  (color h <> "#000000" -> color_mode h = "color").
Proof.
  destruct (color_mode_cases h) as [[Ec Em] | [Ec Em]]; rewrite Em.
  - split; [tauto | intros Hne; contradiction].
  - split; [| reflexivity]. split; [discriminate | intros E; contradiction].
Qed.

(** For a triple of bytes the sentinel is produced by black only. *)
Lemma color_sentinel_bytes (h : H) (r g b : Z) :
  colors h = Rgb r g b ->
  0 <= r <= 255 -> 0 <= g <= 255 -> 0 <= b <= 255 ->
  color h = "#000000" -> (r, g, b) = (0, 0, 0).
Proof.
  intros Hc Hr Hg Hb. unfold color. rewrite Hc. intros E.
  pose proof (parse_format_color r g b Hr Hg Hb) as P.
  rewrite E in P. change (Some (0, 0, 0) = Some (r, g, b)) in P.
  now injection P as -> -> ->.
Qed.

(** C6. A handle reporting [(255, 0, 0)] gives ["#FF0000"] and mode
    ["color"]; a handle reporting [None] gives ["#000000"] and mode
    ["temperature"]; and for every triple of components in [[0, 255]],
    [color] is ["#"] followed by the two uppercase hexadecimal digits of
    each component, seven characters in all, from which the triple can be
    read back. *)
Theorem color_hex_encoding (h : H) :
  (colors h = Rgb 255 0 0 ->
     color h = "#FF0000" /\ color_mode h = "color") /\
  (colors h = PyNone ->
     color h = "#000000" /\ color_mode h = "temperature") /\
  (forall r g b,
     colors h = Rgb r g b ->
     0 <= r <= 255 -> 0 <= g <= 255 -> 0 <= b <= 255 ->
     color h = "#" +:+ hex_byte r +:+ hex_byte g +:+ hex_byte b /\
     String.length (color h) = 7%nat /\
     parse_color (color h) = Some (r, g, b)).
Proof.
  split; [| split].
  - intros Hc. unfold color_mode, color. rewrite Hc. split; reflexivity.
  - intros Hc. unfold color_mode, color. rewrite Hc. split; reflexivity.
  - intros r g b Hc Hr Hg Hb. unfold color. rewrite Hc.
    split; [| split].
    + apply format_color_bytes; assumption.
    + rewrite format_color_bytes by assumption. reflexivity.
    + apply parse_format_color; assumption.
Qed.

(** C10. [color] returns the sentinel ["#000000"] when the handle's
    [colors] is [None] and also when the handle has no [colors] attribute
    at all, and [color_mode] then returns ["temperature"]. *)
Theorem color_without_colors_attr (h : H) :
  colors h = NoAttr \/ colors h = PyNone ->
  color h = "#000000" /\ color_mode h = "temperature".
Proof.
  intros [Hc | Hc]; unfold color_mode, color; rewrite Hc;
    split; reflexivity.
Qed.
End AccessorFacts.

Lemma color_mode_sentinel_law_witness :
  color_mode (sample_handle "T1013" (Rgb 0 0 0) [] []) = "temperature" /\
  color_mode (sample_handle "T1013" (Rgb 0 0 1) [] []) = "color".
Proof.
  split.
  - apply (color_mode_sentinel_law
             (sample_handle "T1013" (Rgb 0 0 0) [] [])).
    reflexivity.
  - apply (color_mode_sentinel_law
             (sample_handle "T1013" (Rgb 0 0 1) [] [])).
    vm_compute. discriminate.
Defined.

Lemma color_hex_encoding_witness :
  color (sample_handle "T1013" (Rgb 18 171 255) [] []) = "#12ABFF" /\
  color (sample_handle "T1013" (Rgb 255 0 0) [] []) = "#FF0000" /\
  color_mode (sample_handle "T1013" PyNone [] []) = "temperature".
Proof.
  destruct (color_hex_encoding
              (sample_handle "T1013" (Rgb 18 171 255) [] []))
    as (_ & _ & Hbytes).
  destruct (color_hex_encoding (sample_handle "T1013" (Rgb 255 0 0) [] []))
    as (Hred & _ & _).
  destruct (color_hex_encoding (sample_handle "T1013" PyNone [] []))
    as (_ & Hnone & _).
  split; [| split].
  - destruct (Hbytes 18 171 255) as (E & _ & _);
      [reflexivity | lia | lia | lia |].
    exact E.
  - apply Hred. reflexivity.
  - apply Hnone. reflexivity.
Defined.

Lemma color_without_colors_attr_witness :
  color (sample_handle "T1013" NoAttr [] []) = "#000000" /\
  color_mode (sample_handle "T1013" NoAttr [] []) = "temperature".
Proof.
  apply (color_without_colors_attr (sample_handle "T1013" NoAttr [] [])).
  left. reflexivity.
Defined.

(** ** The unit converter *)

Lemma clamp_bounds (lo hi x : Z) : lo <= hi -> lo <= Util.clamp lo hi x <= hi.
Proof. unfold Util.clamp. lia. Qed.

Lemma clamp_monotone (lo hi x y : Z) :
  x <= y -> Util.clamp lo hi x <= Util.clamp lo hi y.
Proof. unfold Util.clamp. lia. Qed.

Lemma clamp_in_range (lo hi x : Z) : lo <= x <= hi -> Util.clamp lo hi x = x.
Proof. unfold Util.clamp. lia. Qed.

(** C9. The conversion is non-decreasing (on the vendor's range and beyond
    it), its result lies in [[MIN_TEMPERATURE, MAX_TEMPERATURE]] for every
    input, in range or not, and the ends of the relative range are sent to
    the two bounds. *)
Theorem relative_temp_to_kelvin_monotone_bounded (lo hi tmin tmax : Z) :
  lo < hi -> tmin <= tmax ->
  (forall r1 r2, r1 <= r2 ->
     Util.relative_temp_to_kelvin lo hi tmin tmax r1
     <= Util.relative_temp_to_kelvin lo hi tmin tmax r2) /\
  (forall r, tmin <= Util.relative_temp_to_kelvin lo hi tmin tmax r <= tmax) /\
  Util.relative_temp_to_kelvin lo hi tmin tmax lo = tmin /\
  Util.relative_temp_to_kelvin lo hi tmin tmax hi = tmax.
Proof.
  intros Hrange Htemp. unfold Util.relative_temp_to_kelvin.
  split; [| split; [| split]].
  - intros r1 r2 Hle.
    pose proof (clamp_monotone lo hi r1 r2 Hle) as Hc.
    apply Z.add_le_mono_l. apply Z.div_le_mono; [lia |].
    apply Z.mul_le_mono_nonneg_r; lia.
  - intros r.
    pose proof (clamp_bounds lo hi r ltac:(lia)) as Hc.
    assert (0 <= (Util.clamp lo hi r - lo) * (tmax - tmin) / (hi - lo)
            <= tmax - tmin) as Hq; [| lia].
    split.
    + apply Z.div_pos; [apply Z.mul_nonneg_nonneg; lia | lia].
    + apply Z.div_le_upper_bound; [lia |].
      apply Z.mul_le_mono_nonneg_r; lia.
  - rewrite clamp_in_range by lia.
    replace (lo - lo) with 0 by lia. rewrite Z.mul_0_l.
    rewrite Z.div_0_l by lia. lia.
  - rewrite clamp_in_range by lia.
    rewrite Z.mul_comm, Z.div_mul by lia. lia.
Qed.

Lemma relative_temp_to_kelvin_monotone_bounded_witness :
  sample_kelvin 20 <= sample_kelvin 70 /\
  2700 <= sample_kelvin 250 <= 6500 /\
  sample_kelvin 0 = 2700 /\
  sample_kelvin 100 = 6500.
Proof.
  destruct (relative_temp_to_kelvin_monotone_bounded 0 100 2700 6500)
    as (Hmono & Hbound & Hlo & Hhi); [lia | lia |].
  split; [| split; [| split]].
  - apply Hmono. lia.
  - apply Hbound.
  - exact Hlo.
  - exact Hhi.
Defined.

(** ** Construction *)

Section ConstructionFacts.
Context {H : Type} `{RemoteHandle H}.
Variables MIN_TEMPERATURE MAX_TEMPERATURE : Z.
Variable relative_temp_to_kelvin : Z -> Z.

Local Abbreviation construct' :=
  (construct MIN_TEMPERATURE MAX_TEMPERATURE relative_temp_to_kelvin).
Local Abbreviation class_properties' :=
  (class_properties MIN_TEMPERATURE MAX_TEMPERATURE
     relative_temp_to_kelvin).

Ltac run_constructor :=
  unfold construct, EufySwitch, EufyBulb, EufySwitch__init__,
    EufyBulb__init__, EufyDevice__init__, Device__init__, add_property,
    extend_type, when, call_connect, call_update, emit, modify_self,
    get_self, bind, ret;
  cbn [self log eufy_dev properties _type description name dev_id
       set_eufy_dev set_description set_name set_type set_properties
       fst snd].

(** A failing [connect] ends the constructor at once. *)
Lemma construct_connect_fails cls _id nm h e h1 :
  connect h = (Some e, h1) ->
  exists w, construct' cls _id nm h = (Raise e, w) /\
            properties (self w) = [] /\
            log w = [EConnect (Some e)].
Proof.
  intros Hc. destruct cls; run_constructor; rewrite Hc;
    eexists; split; try reflexivity; split; reflexivity.
Qed.

(** So does a failing [update] after a successful [connect]. *)
Lemma construct_update_fails cls _id nm h e h1 h2 :
  connect h = (None, h1) -> update h1 = (Some e, h2) ->
  exists w, construct' cls _id nm h = (Raise e, w) /\
            properties (self w) = [] /\
            log w = [EConnect None; EUpdate (Some e)].
Proof.
  intros Hc Hu. destruct cls; run_constructor; rewrite Hc;
    cbn [self log eufy_dev set_eufy_dev]; rewrite Hu;
    eexists; split; try reflexivity; split; reflexivity.
Qed.

(** When both calls succeed the constructor returns, and it has built
    the dictionary of its class over the refreshed handle. *)
Lemma construct_success cls _id nm h h1 h2 :
  connect h = (None, h1) -> update h1 = (None, h2) ->
  exists w, construct' cls _id nm h = (Ok tt, w) /\
            eufy_dev (self w) = h2 /\
            properties (self w) = class_properties' cls h2 /\
            log w = [EConnect None; EUpdate None; EThreadStart]
                      ++ map construction_event (properties (self w)).
Proof.
  intros Hc Hu. destruct cls; run_constructor; rewrite Hc;
    cbn [self log eufy_dev set_eufy_dev]; rewrite Hu;
    cbn [self log eufy_dev set_eufy_dev properties set_properties
         set_type _type].
  - eexists; split; [reflexivity |]. cbn. auto.
  - unfold class_properties, bulb_properties, is_variable_color_temp,
      is_color.
    destruct (String.eqb (kind h2) "T1013") eqn:E13;
      destruct (String.eqb (kind h2) "T1012") eqn:E12;
      repeat (first [rewrite E13 | rewrite E12 | progress cbn]);
      eexists; (split; [reflexivity |]); cbn; auto.
Qed.
(** A constructor that returned went through both calls. *)
Lemma construct_returned cls _id nm h w :
  construct' cls _id nm h = (Ok tt, w) ->
  properties (self w) = class_properties' cls (eufy_dev (self w)) /\
  log w = [EConnect None; EUpdate None; EThreadStart]
            ++ map construction_event (properties (self w)).
Proof.
  intros Hok.
  destruct (connect h) as [[e |] h1] eqn:Hc.
  - destruct (construct_connect_fails cls _id nm h e h1 Hc)
      as (w' & Hr & _). congruence.
  - destruct (update h1) as [[e |] h2] eqn:Hu.
    + destruct (construct_update_fails cls _id nm h e h1 h2 Hc Hu)
        as (w' & Hr & _). congruence.
    + destruct (construct_success cls _id nm h h1 h2 Hc Hu)
        as (w' & Hr & Hh & Hp & Hl).
      assert (w' = w) as -> by congruence.
      rewrite Hh. auto.
Qed.

(** C8. The constructors call [connect], then [update], before any
    property is constructed. If [connect] raises, or [update] raises after
    it, the constructor raises the same exception, nothing else has been
    done and the object has no property. If both succeed, the
    construction of the properties follows, in dictionary order. *)
Theorem construct_connects_and_updates_first cls _id nm h :
  (forall e h1,
     connect h = (Some e, h1) ->
     exists w, construct' cls _id nm h = (Raise e, w) /\
               properties (self w) = [] /\
               log w = [EConnect (Some e)]) /\
  (forall e h1 h2,
     connect h = (None, h1) -> update h1 = (Some e, h2) ->
     exists w, construct' cls _id nm h = (Raise e, w) /\
               properties (self w) = [] /\
               log w = [EConnect None; EUpdate (Some e)]) /\
  (forall h1 h2,
     connect h = (None, h1) -> update h1 = (None, h2) ->
     exists w, construct' cls _id nm h = (Ok tt, w) /\
               log w = [EConnect None; EUpdate None; EThreadStart]
                         ++ map construction_event (properties (self w))).
Proof.
  split; [| split].
  - intros e h1. apply construct_connect_fails.
  - intros e h1 h2. apply construct_update_fails.
  - intros h1 h2 Hc Hu.
    destruct (construct_success cls _id nm h h1 h2 Hc Hu)
      as (w & Hr & _ & _ & Hl).
    exists w. auto.
Qed.

(** C1. The property names of a constructed device are those of the
    capability table at its class and model identifier: a bulb of kind
    ["T1013"] has on, level, color, colorTemperature and colorMode; a bulb
    of kind ["T1012"] has on, level and colorTemperature; any other bulb
    has on and level; a switch has on. No name occurs twice. *)
Theorem property_keys_by_model cls _id nm h w :
  construct' cls _id nm h = (Ok tt, w) ->
  list_to_set (dict_keys (properties (self w)))
    = capability_keys cls (kind (eufy_dev (self w))) /\
  NoDup (dict_keys (properties (self w))).
Proof.
  intros Hok. destruct (construct_returned cls _id nm h w Hok) as [-> _].
  destruct cls; unfold class_properties, switch_properties,
    bulb_properties, capability_keys, is_color, is_variable_color_temp.
  - cbn. split; [set_solver | compute_done].
  - destruct (String.eqb (kind (eufy_dev (self w))) "T1013") eqn:E13;
      destruct (String.eqb (kind (eufy_dev (self w))) "T1012") eqn:E12;
      cbn; (split; [set_solver | compute_done]).
Qed.

(** The properties of a constructed device are among the five, each with
    the value its accessor reads from the handle. *)
Lemma constructed_values cls _id nm h w key p :
  construct' cls _id nm h = (Ok tt, w) ->
  dict_get key (properties (self w)) = Some p ->
  (key = "on" /\ prop_value p = VBool (power (eufy_dev (self w)))) \/
  (key = "level" /\ prop_value p = VInt (brightness (eufy_dev (self w)))) \/
  (key = "color" /\ prop_value p = VStr (color (eufy_dev (self w)))) \/
  (key = "colorTemperature" /\
   prop_value p
     = VInt (relative_temp_to_kelvin (temperature (eufy_dev (self w))))) \/
  (key = "colorMode" /\
   prop_value p = VStr (color_mode (eufy_dev (self w)))).
Proof.
  intros Hok. destruct (construct_returned cls _id nm h w Hok) as [-> _].
  destruct cls; unfold class_properties, switch_properties,
    bulb_properties, mk_property.
  - cbn. destruct (String.eqb_spec key "on") as [-> |]; [| discriminate].
    intros [= <-]. left. auto.
  - destruct (is_color (eufy_dev (self w)));
      destruct (is_variable_color_temp (eufy_dev (self w)));
      cbn [app andb dict_get];
      repeat
        match goal with
        | |- context [String.eqb key ?k] =>
            destruct (String.eqb_spec key k) as [-> |]
        end;
      intros [= <-] || discriminate; cbn; tauto.
Qed.

(** C5. When [connect] and [update] succeed the constructor returns, with
    the handle as [update] left it. When a constructor has returned, the
    device has its properties and each holds the value read from the handle
    as it then is: on is there with the power flag; a bulb has level with
    the brightness; a bulb of kind ["T1013"] has color with the hexadecimal
    string and colorMode with the derived mode; a bulb of kind ["T1012"] or
    ["T1013"] has colorTemperature with the converted temperature; and
    there is no other property, nor another value. *)
Theorem initial_values_mirror_handle cls _id nm h :
  (forall h1 h2,
     connect h = (None, h1) -> update h1 = (None, h2) ->
     exists w, construct' cls _id nm h = (Ok tt, w) /\
               eufy_dev (self w) = h2) /\
  (forall w,
     construct' cls _id nm h = (Ok tt, w) ->
     holds_value w "on" (VBool (power (eufy_dev (self w)))) /\
     (cls = Bulb ->
      holds_value w "level" (VInt (brightness (eufy_dev (self w))))) /\
     (cls = Bulb -> kind (eufy_dev (self w)) = "T1013" ->
      holds_value w "color" (VStr (color (eufy_dev (self w)))) /\
      holds_value w "colorMode" (VStr (color_mode (eufy_dev (self w))))) /\
     (cls = Bulb ->
      kind (eufy_dev (self w)) = "T1012" \/
      kind (eufy_dev (self w)) = "T1013" ->
      holds_value w "colorTemperature"
        (VInt (relative_temp_to_kelvin (temperature (eufy_dev (self w)))))) /\
     (forall key p,
        dict_get key (properties (self w)) = Some p ->
        (key = "on" /\ prop_value p = VBool (power (eufy_dev (self w)))) \/
        (key = "level" /\
         prop_value p = VInt (brightness (eufy_dev (self w)))) \/
        (key = "color" /\ prop_value p = VStr (color (eufy_dev (self w)))) \/
        (key = "colorTemperature" /\
         prop_value p
           = VInt (relative_temp_to_kelvin
                     (temperature (eufy_dev (self w))))) \/
        (key = "colorMode" /\
         prop_value p = VStr (color_mode (eufy_dev (self w)))))).
Proof.
  split.
  - intros h1 h2 Hc Hu.
    destruct (construct_success cls _id nm h h1 h2 Hc Hu)
      as (w & Hrun & Hh & _).
    exists w. auto.
  - intros w Hok.
    pose proof (construct_returned cls _id nm h w Hok) as [Hprops _].
    split; [| split; [| split; [| split]]].
    + unfold holds_value. rewrite Hprops.
      destruct cls; unfold class_properties, switch_properties,
        bulb_properties, mk_property.
      * eexists. split; reflexivity.
      * destruct (is_color (eufy_dev (self w)));
          destruct (is_variable_color_temp (eufy_dev (self w)));
          eexists; split; reflexivity.
    + intros ->. unfold holds_value. rewrite Hprops.
      unfold class_properties, bulb_properties, mk_property.
      destruct (is_color (eufy_dev (self w)));
        destruct (is_variable_color_temp (eufy_dev (self w)));
        eexists; split; reflexivity.
    + intros -> Hkind. unfold holds_value. rewrite Hprops.
      unfold class_properties, bulb_properties, mk_property,
        is_color, is_variable_color_temp.
      rewrite Hkind. split; eexists; split; reflexivity.
    + intros -> Hkind. unfold holds_value. rewrite Hprops.
      unfold class_properties, bulb_properties, mk_property,
        is_color, is_variable_color_temp.
      destruct Hkind as [Hkind | Hkind]; rewrite Hkind;
        eexists; split; reflexivity.
    + intros key p Hget.
      exact (constructed_values cls _id nm h w key p Hok Hget).
Qed.
End ConstructionFacts.

(** ** Dictionaries *)

Lemma value_eqb_eq (v w : value) : value_eqb v w = true -> v = w.
Proof.
  destruct v, w; cbn; try discriminate; intros E.
  - apply Bool.eqb_prop in E. congruence.
  - apply Z.eqb_eq in E. congruence.
  - apply String.eqb_eq in E. congruence.
Qed.

Section DictFacts.
Context {A : Type}.
Implicit Types (d : list (string * A)) (k : string) (v : A).

Lemma dict_get_set_eq k v d : dict_get k (dict_set k v d) = Some v.
Proof.
  induction d as [| [k' v'] d IH]; cbn.
  - now rewrite String.eqb_refl.
  - destruct (String.eqb_spec k k') as [-> | Hne]; cbn.
    + now rewrite String.eqb_refl.
    + destruct (String.eqb_spec k k'); [contradiction | exact IH].
Qed.

Lemma dict_get_set_ne k k' v d :
  k <> k' -> dict_get k (dict_set k' v d) = dict_get k d.
Proof.
  intros Hne. induction d as [| [k0 v0] d IH]; cbn.
  - destruct (String.eqb_spec k k'); [contradiction | reflexivity].
  - destruct (String.eqb_spec k' k0) as [-> | Hne0]; cbn.
    + destruct (String.eqb_spec k k0); [contradiction | reflexivity].
    + destruct (String.eqb_spec k k0); [reflexivity | exact IH].
Qed.

(** Assigning to a key that is present keeps the keys and their order. *)
Lemma dict_keys_set_present k v v0 d :
  dict_get k d = Some v0 -> dict_keys (dict_set k v d) = dict_keys d.
Proof.
  induction d as [| [k' v'] d IH]; cbn; [discriminate |].
  destruct (String.eqb_spec k k') as [-> | Hne]; cbn.
  - reflexivity.
  - intros Hget. f_equal. apply IH, Hget.
Qed.
End DictFacts.

(** ** Refreshing the properties *)

Section RefreshFacts.
Context {H : Type} `{RemoteHandle H}.
Variable relative_temp_to_kelvin : Z -> Z.

Local Abbreviation prop_update' := (prop_update relative_temp_to_kelvin).
Local Abbreviation in_sync' := (in_sync relative_temp_to_kelvin).
Local Abbreviation refreshed' := (refreshed relative_temp_to_kelvin).

Lemma refreshed_nil (w : World H) : refreshed' [] w w.
Proof.
  split; try reflexivity; try tauto.
  - exists []. rewrite app_nil_r. cbn. tauto.
  - intros k [].
Qed.

Lemma refreshed_trans (k : string) (ks : list string) (w1 w2 w3 : World H) :
  refreshed' [k] w1 w2 -> refreshed' ks w2 w3 -> refreshed' (k :: ks) w1 w3.
Proof.
  intros [Hh1 Hk1 (e1 & Hl1 & Hf1 & Hi1 & Hn1) Hs1 Hp1]
         [Hh2 Hk2 (e2 & Hl2 & Hf2 & Hi2 & Hn2) Hs2 Hp2].
  split.
  - congruence.
  - congruence.
  - exists (e1 ++ e2). split; [| split; [| split]].
    + rewrite Hl2, Hl1. now rewrite app_assoc.
    + rewrite forallb_app, Hf1, Hf2. reflexivity.
    + intros k' [<- | Hin]; apply in_or_app.
      * left. apply Hi1. now left.
      * right. now apply Hi2.
    + intros He. apply app_eq_nil in He as [-> ->].
      rewrite Hn2, Hn1; reflexivity.
  - intros k' [<- | Hin].
    + apply Hp2, Hs1. now left.
    + now apply Hs2.
  - intros k' Hk'. now apply Hp2, Hp1.
Qed.

(** A refresh that finds nothing to publish. *)
Lemma refreshed_quiet (key : string) (w : World H) :
  in_sync' key (self w) ->
  refreshed' [key] w {| self := self w; log := log w ++ [ERefresh key] |}.
Proof.
  intros Hsync. split; cbn [self log]; try reflexivity.
  - exists [ERefresh key]. split; [| split; [| split]].
    + reflexivity.
    + reflexivity.
    + intros k [<- | []]. now left.
    + discriminate.
  - intros k [<- | []]. exact Hsync.
  - tauto.
Qed.

(** A refresh that stores and publishes a new value. *)
Lemma refreshed_publish (key : string) (p : Property) (v : value)
    (w : World H) :
  dict_get key (properties (self w)) = Some p ->
  read_current_value relative_temp_to_kelvin key (eufy_dev (self w))
    = Some v ->
  refreshed' [key] w
    {| self := set_properties
                 (dict_set key (set_value v p) (properties (self w)))
                 (self w);
       log := (log w ++ [ERefresh key]) ++ [ENotify key v] |}.
Proof.
  intros Hget Hread.
  assert (Hkey : in_sync' key
            (set_properties
               (dict_set key (set_value v p) (properties (self w)))
               (self w))).
  { intros p' v'. cbn [properties eufy_dev set_properties].
    rewrite dict_get_set_eq. intros [= <-] Hv'. cbn. congruence. }
  split; cbn [self log eufy_dev properties set_properties].
  - reflexivity.
  - eapply dict_keys_set_present, Hget.
  - exists [ERefresh key; ENotify key v]. split; [| split; [| split]].
    + now rewrite <- app_assoc.
    + reflexivity.
    + intros k [<- | []]. now left.
    + discriminate.
  - intros k [<- | []]. exact Hkey.
  - intros k Hk. destruct (String.eqb_spec k key) as [-> | Hne].
    + exact Hkey.
    + intros p' v'. cbn [properties eufy_dev set_properties].
      rewrite dict_get_set_ne by exact Hne. apply Hk.
Qed.

(** [prop.update()] returns normally, touches the value of its own
    property only, and leaves that property in sync. *)
Lemma prop_update_refreshed (key : string) (w : World H) :
  exists w', prop_update' key w = (Ok tt, w') /\ refreshed' [key] w w'.
Proof.
  unfold prop_update, bind, emit, get_self, modify_self, ret.
  cbn [self log].
  destruct (dict_get key (properties (self w))) as [p |] eqn:Hget.
  - destruct (read_current_value relative_temp_to_kelvin key
                (eufy_dev (self w))) as [v |] eqn:Hread.
    + destruct (value_eqb v (prop_value p)) eqn:Heq.
      * eexists. split; [reflexivity |]. apply refreshed_quiet.
        intros p' v' Hp' Hv'. apply value_eqb_eq in Heq. congruence.
      * eexists. split; [reflexivity |]. cbn [self log].
        apply refreshed_publish; assumption.
    + eexists. split; [reflexivity |]. apply refreshed_quiet.
      intros p' v' _ Hv'. congruence.
  - eexists. split; [reflexivity |]. apply refreshed_quiet.
    intros p' v' Hp'. congruence.
Qed.

Lemma for_each_refreshed (ks : list string) (w : World H) :
  exists w', for_each ks prop_update' w = (Ok tt, w') /\ refreshed' ks w w'.
Proof.
  revert w. induction ks as [| k ks IH]; intros w.
  - exists w. split; [reflexivity | apply refreshed_nil].
  - destruct (prop_update_refreshed k w) as (w1 & Hrun1 & Hr1).
    destruct (IH w1) as (w2 & Hrun2 & Hr2).
    exists w2. split.
    + cbn [for_each]. unfold bind. now rewrite Hrun1.
    + eapply refreshed_trans; eassumption.
Qed.

(** The [for] loop of [poll] refreshes every property of the device. *)
Lemma refresh_all_refreshed (w : World H) :
  exists w',
    refresh_all relative_temp_to_kelvin w = (Ok tt, w') /\
    refreshed' (dict_keys (properties (self w))) w w'.
Proof.
  unfold refresh_all, bind, get_self. apply for_each_refreshed.
Qed.
End RefreshFacts.

(** ** The polling loop *)

Section PollFacts.
Context {H : Type} `{RemoteHandle H}.
Variable relative_temp_to_kelvin : Z -> Z.

Local Abbreviation poll_cycle' := (poll_cycle relative_temp_to_kelvin).
Local Abbreviation poll' := (poll relative_temp_to_kelvin).
Local Abbreviation refresh_all' := (refresh_all relative_temp_to_kelvin).
Local Abbreviation refreshed' := (refreshed relative_temp_to_kelvin).
Local Abbreviation in_sync' := (in_sync relative_temp_to_kelvin).

Ltac run_cycle :=
  unfold poll_cycle, sleep, poll_try, try_except, bind, call_update,
    call_connect, emit, ret, after_calls;
  cbn [self log eufy_dev set_eufy_dev].

Ltac step_call Hcall :=
  rewrite Hcall;
  cbn [self log eufy_dev set_eufy_dev is_BrokenPipeError].

Ltac same_world :=
  unfold set_eufy_dev; cbn [dev_id eufy_dev description name _type
    properties]; rewrite <- ?app_assoc; reflexivity.

(** *** The seven ways through a cycle *)

Lemma cycle_first_update_ok w h1 :
  update (eufy_dev (self w)) = (None, h1) ->
  poll_cycle' w = refresh_all' (after_calls h1 [EUpdate None] w).
Proof. intros Hu. run_cycle. step_call Hu. same_world. Qed.

Lemma cycle_recovered w h1 h2 h3 :
  update (eufy_dev (self w)) = (Some BrokenPipeError, h1) ->
  connect h1 = (None, h2) ->
  update h2 = (None, h3) ->
  poll_cycle' w =
    refresh_all'
      (after_calls h3
         [EUpdate (Some BrokenPipeError); EConnect None; EUpdate None] w).
Proof.
  intros Hu Hc Hu'. run_cycle. step_call Hu. step_call Hc. step_call Hu'.
  same_world.
Qed.

Lemma cycle_skipped_connect w h1 h2 e :
  update (eufy_dev (self w)) = (Some BrokenPipeError, h1) ->
  connect h1 = (Some e, h2) ->
  is_OSError e = true ->
  poll_cycle' w =
    (Ok tt,
     after_calls h2
       [EUpdate (Some BrokenPipeError); EConnect (Some e)] w).
Proof.
  intros Hu Hc He. run_cycle. step_call Hu. step_call Hc. rewrite He.
  same_world.
Qed.

Lemma cycle_skipped_update w h1 h2 h3 e :
  update (eufy_dev (self w)) = (Some BrokenPipeError, h1) ->
  connect h1 = (None, h2) ->
  update h2 = (Some e, h3) ->
  is_OSError e = true ->
  poll_cycle' w =
    (Ok tt,
     after_calls h3
       [EUpdate (Some BrokenPipeError); EConnect None; EUpdate (Some e)]
       w).
Proof.
  intros Hu Hc Hu' He. run_cycle. step_call Hu. step_call Hc.
  step_call Hu'. rewrite He. same_world.
Qed.

Lemma cycle_escape_first_update w h1 e :
  update (eufy_dev (self w)) = (Some e, h1) ->
  is_BrokenPipeError e = false ->
  poll_cycle' w = (Raise e, after_calls h1 [EUpdate (Some e)] w).
Proof.
  intros Hu He. run_cycle. step_call Hu. rewrite He. same_world.
Qed.

Lemma cycle_escape_connect w h1 h2 e :
  update (eufy_dev (self w)) = (Some BrokenPipeError, h1) ->
  connect h1 = (Some e, h2) ->
  is_OSError e = false ->
  poll_cycle' w =
    (Raise e,
     after_calls h2
       [EUpdate (Some BrokenPipeError); EConnect (Some e)] w).
Proof.
  intros Hu Hc He. run_cycle. step_call Hu. step_call Hc. rewrite He.
  same_world.
Qed.

Lemma cycle_escape_update w h1 h2 h3 e :
  update (eufy_dev (self w)) = (Some BrokenPipeError, h1) ->
  connect h1 = (None, h2) ->
  update h2 = (Some e, h3) ->
  is_OSError e = false ->
  poll_cycle' w =
    (Raise e,
     after_calls h3
       [EUpdate (Some BrokenPipeError); EConnect None; EUpdate (Some e)]
       w).
Proof.
  intros Hu Hc Hu' He. run_cycle. step_call Hu. step_call Hc.
  step_call Hu'. rewrite He. same_world.
Qed.

Lemma BrokenPipeError_inv e :
  is_BrokenPipeError e = true -> e = BrokenPipeError.
Proof. destruct e; cbn; congruence. Qed.

(** Every cycle is one of: the refreshes after a successful last
    [update]; a skip with no refresh; an escaping exception. *)
Lemma poll_cycle_cases w :
  exists h' calls,
    forallb is_handle_call calls = true /\
    ((last calls = Some (EUpdate None) /\
      poll_cycle' w = refresh_all' (after_calls h' calls w)) \/
     (last calls <> Some (EUpdate None) /\
      poll_cycle' w = (Ok tt, after_calls h' calls w)) \/
     (exists e, escapes e calls /\
                poll_cycle' w = (Raise e, after_calls h' calls w))).
Proof.
  destruct (update (eufy_dev (self w))) as [[e |] h1] eqn:Hu.
  - destruct (is_BrokenPipeError e) eqn:Hbp.
    + apply BrokenPipeError_inv in Hbp. subst e.
      destruct (connect h1) as [[e |] h2] eqn:Hc.
      * destruct (is_OSError e) eqn:Hos.
        -- eexists _, _. split; [| right; left; split;
             [| eapply cycle_skipped_connect; eassumption]].
           ++ reflexivity.
           ++ cbn. congruence.
        -- eexists _, _. split; [| right; right; exists e; split;
             [| eapply cycle_escape_connect; eassumption]].
           ++ reflexivity.
           ++ right; left. auto.
      * destruct (update h2) as [[e |] h3] eqn:Hu'.
        -- destruct (is_OSError e) eqn:Hos.
           ++ eexists _, _. split; [| right; left; split;
                [| eapply cycle_skipped_update; eassumption]].
              ** reflexivity.
              ** cbn. congruence.
           ++ eexists _, _. split; [| right; right; exists e; split;
                [| eapply cycle_escape_update; eassumption]].
              ** reflexivity.
              ** right; right. auto.
        -- eexists _, _. split; [| left; split;
             [| eapply cycle_recovered; eassumption]]; reflexivity.
    + eexists _, _. split; [| right; right; exists e; split;
        [| eapply cycle_escape_first_update; eassumption]].
      * reflexivity.
      * left. auto.
  - eexists _, _. split; [| left; split;
      [| eapply cycle_first_update_ok; eassumption]]; reflexivity.
Qed.
(** *** Ordering within a cycle *)

(** C7. The events of a cycle are the sleep, then the handle calls, then
    the refreshes, never interleaved; and there are refreshes only when
    the last handle call is an [update] that succeeded (the first one or
    the one after a reconnect). Otherwise the cycle is given up with no
    refresh at all. *)
Theorem refreshes_follow_successful_update w :
  exists calls refreshes,
    log (snd (poll_cycle' w))
      = log w ++ ESleep _POLL_INTERVAL :: calls ++ refreshes /\
    forallb is_handle_call calls = true /\
    forallb is_refresh_event refreshes = true /\
    (last calls = Some (EUpdate None) \/ refreshes = []).
Proof.
  destruct (poll_cycle_cases w)
  as (h' & calls & Hcalls &
      [[Hlast Hrun] | [[Hlast Hrun] | (e & _ & Hrun)]]);
    rewrite Hrun.
  - destruct (refresh_all_refreshed relative_temp_to_kelvin
                (after_calls h' calls w))
      as (w' & -> & [_ _ (evs & Hlog & Hevs & _) _ _]).
    exists calls, evs. cbn [snd]. rewrite Hlog. unfold after_calls.
    cbn [log]. rewrite <- app_assoc. cbn [app]. auto.
  - exists calls, []. cbn [snd after_calls log].
    rewrite app_nil_r. auto.
  - exists calls, []. cbn [snd after_calls log].
    rewrite app_nil_r. auto.
Qed.

(** *** Recovery from a broken pipe *)

(** C3. Take a cycle whose first [update] raises [BrokenPipeError]. If
    the [connect] and the second [update] succeed, the cycle ends
    normally: every property of the device is refreshed, and its value is
    then the one read from the handle as the second [update] left it. If
    [connect], or the second [update], raises an [OSError], the cycle ends
    normally too, with only handle calls logged: no refresh, no
    notification, the properties as they were. *)
Theorem broken_pipe_recovery w h1 :
  update (eufy_dev (self w)) = (Some BrokenPipeError, h1) ->
  (forall h2 h3,
     connect h1 = (None, h2) -> update h2 = (None, h3) ->
     exists w' evs,
       poll_cycle' w = (Ok tt, w') /\
       eufy_dev (self w') = h3 /\
       dict_keys (properties (self w')) = dict_keys (properties (self w)) /\
       log w' = log w ++ [ESleep _POLL_INTERVAL;
                          EUpdate (Some BrokenPipeError);
                          EConnect None; EUpdate None] ++ evs /\
       forallb is_refresh_event evs = true /\
       (forall k, In k (dict_keys (properties (self w))) ->
                  In (ERefresh k) evs /\ in_sync' k (self w'))) /\
  (forall e h2 h3,
     is_OSError e = true ->
     connect h1 = (Some e, h2) \/
     (connect h1 = (None, h2) /\ update h2 = (Some e, h3)) ->
     exists w' calls,
       poll_cycle' w = (Ok tt, w') /\
       properties (self w') = properties (self w) /\
       log w' = log w ++ ESleep _POLL_INTERVAL :: calls /\
       forallb is_handle_call calls = true).
Proof.
  intros Hu. split.
  - intros h2 h3 Hc Hu'.
    rewrite (cycle_recovered w h1 h2 h3 Hu Hc Hu').
    destruct (refresh_all_refreshed relative_temp_to_kelvin
                (after_calls h3
                   [EUpdate (Some BrokenPipeError); EConnect None;
                    EUpdate None] w))
      as (w' & -> & [Hh Hk (evs & Hlog & Hevs & Hin & _) Hs _]).
    exists w', evs. cbn [after_calls self log eufy_dev set_eufy_dev
      properties] in *.
    split; [reflexivity |]. split; [exact Hh |]. split; [exact Hk |].
    split; [| split; [exact Hevs |]].
    + rewrite Hlog. rewrite <- app_assoc. reflexivity.
    + intros k Hk'. split; [apply Hin | apply Hs]; exact Hk'.
  - intros e h2 h3 He [Hc | [Hc Hu']].
    + rewrite (cycle_skipped_connect w h1 h2 e Hu Hc He).
      eexists _, _. repeat split.
    + rewrite (cycle_skipped_update w h1 h2 h3 e Hu Hc Hu' He).
      eexists _, _. repeat split.
Qed.

(** *** Leaving the loop *)

(** An exception that leaves [poll] was raised by the handle and is one
    that the [try] statement does not catch. *)
Lemma poll_raise_cause n w e w' :
  poll' n w = (Raise e, w') ->
  exists pre calls,
    log w' = pre ++ ESleep _POLL_INTERVAL :: calls /\ escapes e calls.
Proof.
  revert w. induction n as [| n IH]; intros w; cbn [poll].
  - unfold ret. discriminate.
  - unfold bind.
    destruct (poll_cycle_cases w)
      as (h' & calls & _ & [[_ Hrun] | [[_ Hrun] | (e' & Hesc & Hrun)]]);
      rewrite Hrun.
    + destruct (refresh_all_refreshed relative_temp_to_kelvin
                  (after_calls h' calls w)) as (w1 & -> & _).
      apply IH.
    + apply IH.
    + intros [= <- <-]. exists (log w), calls. auto.
Qed.

(** C2 (as the code has it). [poll] has no exit of its own: an exception
    that leaves it was raised by a handle call and is not of a class the
    [try] statement catches. When the first [update] of a cycle raises
    [BrokenPipeError] and the recovery raises an [OSError], the cycle is
    skipped with the properties unchanged and the loop goes on with the
    next cycle. When the first [update] of a cycle raises anything else,
    or the recovery raises anything that is not an [OSError], that
    exception leaves the loop. *)
Theorem poll_leaves_only_by_uncaught_exception n w :
  (forall e h1 h2 h3,
     update (eufy_dev (self w)) = (Some BrokenPipeError, h1) ->
     is_OSError e = true ->
     connect h1 = (Some e, h2) \/
     (connect h1 = (None, h2) /\ update h2 = (Some e, h3)) ->
     exists w1,
       poll_cycle' w = (Ok tt, w1) /\
       properties (self w1) = properties (self w) /\
       poll' (S n) w = poll' n w1) /\
  (forall e h1,
     update (eufy_dev (self w)) = (Some e, h1) ->
     is_BrokenPipeError e = false ->
     exists w1,
       poll' (S n) w = (Raise e, w1) /\
       properties (self w1) = properties (self w)) /\
  (forall e h1 h2 h3,
     update (eufy_dev (self w)) = (Some BrokenPipeError, h1) ->
     is_OSError e = false ->
     connect h1 = (Some e, h2) \/
     (connect h1 = (None, h2) /\ update h2 = (Some e, h3)) ->
     exists w1,
       poll' (S n) w = (Raise e, w1) /\
       properties (self w1) = properties (self w)) /\
  (forall e w',
     poll' n w = (Raise e, w') ->
     exists pre calls,
       log w' = pre ++ ESleep _POLL_INTERVAL :: calls /\ escapes e calls).
Proof.
  split; [| split; [| split]].
  - intros e h1 h2 h3 Hu He [Hc | [Hc Hu']].
    + pose proof (cycle_skipped_connect w h1 h2 e Hu Hc He) as Hrun.
      eexists. split; [exact Hrun |]. split; [reflexivity |].
      cbn [poll]. unfold bind. now rewrite Hrun.
    + pose proof (cycle_skipped_update w h1 h2 h3 e Hu Hc Hu' He) as Hrun.
      eexists. split; [exact Hrun |]. split; [reflexivity |].
      cbn [poll]. unfold bind. now rewrite Hrun.
  - intros e h1 Hu He.
    pose proof (cycle_escape_first_update w h1 e Hu He) as Hrun.
    eexists. split.
    + cbn [poll]. unfold bind. rewrite Hrun. reflexivity.
    + reflexivity.
  - intros e h1 h2 h3 Hu He [Hc | [Hc Hu']].
    + pose proof (cycle_escape_connect w h1 h2 e Hu Hc He) as Hrun.
      eexists. split.
      * cbn [poll]. unfold bind. rewrite Hrun. reflexivity.
      * reflexivity.
    + pose proof (cycle_escape_update w h1 h2 h3 e Hu Hc Hu' He) as Hrun.
      eexists. split.
      * cbn [poll]. unfold bind. rewrite Hrun. reflexivity.
      * reflexivity.
  - intros e w'. apply poll_raise_cause.
Qed.
End PollFacts.

(** ** The theorems at sample devices *)

Lemma property_keys_by_model_witness :
  list_to_set
    (dict_keys
       (properties
          (self (snd (sample_construct Bulb "T1012" PyNone [] [])))))
    = capability_keys Bulb "T1012" /\
  list_to_set
    (dict_keys
       (properties
          (self (snd (sample_construct Switch "T1201" NoAttr [] [])))))
    = capability_keys Switch "T1201".
Proof.
  split.
  - refine (proj1 (property_keys_by_model 2700 6500 sample_kelvin Bulb
                     "device-1" (Some "Lamp")
                     (sample_handle "T1012" PyNone [] [])
                     (snd (sample_construct Bulb "T1012" PyNone [] [])) _)).
    vm_compute. reflexivity.
  - refine (proj1 (property_keys_by_model 2700 6500 sample_kelvin Switch
                     "device-1" (Some "Lamp")
                     (sample_handle "T1201" NoAttr [] [])
                     (snd (sample_construct Switch "T1201" NoAttr [] [])) _)).
    vm_compute. reflexivity.
Defined.

Lemma initial_values_mirror_handle_witness :
  (exists w,
     sample_construct Bulb "T1013" (Rgb 255 0 0) [] [] = (Ok tt, w)) /\
  holds_value (snd (sample_construct Bulb "T1013" (Rgb 255 0 0) [] []))
    "on" (VBool true) /\
  holds_value (snd (sample_construct Bulb "T1013" (Rgb 255 0 0) [] []))
    "level" (VInt 40) /\
  holds_value (snd (sample_construct Bulb "T1013" (Rgb 255 0 0) [] []))
    "color" (VStr "#FF0000") /\
  holds_value (snd (sample_construct Bulb "T1013" (Rgb 255 0 0) [] []))
    "colorMode" (VStr "color") /\
  holds_value (snd (sample_construct Bulb "T1013" (Rgb 255 0 0) [] []))
    "colorTemperature" (VInt 4600).
Proof.
  destruct (initial_values_mirror_handle 2700 6500 sample_kelvin Bulb
              "device-1" (Some "Lamp")
              (sample_handle "T1013" (Rgb 255 0 0) [] []))
    as [Hreturns Hvalues].
  assert (Hrun : construct 2700 6500 sample_kelvin Bulb "device-1"
                   (Some "Lamp") (sample_handle "T1013" (Rgb 255 0 0) [] [])
                 = (Ok tt,
                    snd (sample_construct Bulb "T1013" (Rgb 255 0 0) [] [])))
    by (vm_compute; reflexivity).
  destruct (Hvalues _ Hrun) as (Hon & Hlevel & Hcolor & Htemp & _).
  destruct (Hcolor eq_refl) as [Hc Hm]; [reflexivity |].
  split; [| split; [| split; [| split; [| split]]]].
  - destruct (Hreturns (sample_handle "T1013" (Rgb 255 0 0) [] [])
                (sample_handle "T1013" (Rgb 255 0 0) [] []))
      as (w & Hw & _); [reflexivity | reflexivity |].
    exists w. exact Hw.
  - exact Hon.
  - exact (Hlevel eq_refl).
  - exact Hc.
  - exact Hm.
  - apply (Htemp eq_refl). right. reflexivity.
Defined.

Lemma construct_connects_and_updates_first_witness :
  (exists w,
     sample_construct Bulb "T1013" PyNone [Some TimeoutError] []
       = (Raise TimeoutError, w) /\
     properties (self w) = [] /\
     log w = [EConnect (Some TimeoutError)]) /\
  (exists w,
     sample_construct Switch "T1201" NoAttr [] [Fails ConnectionResetError]
       = (Raise ConnectionResetError, w) /\
     properties (self w) = [] /\
     log w = [EConnect None; EUpdate (Some ConnectionResetError)]) /\
  (exists w,
     sample_construct Bulb "T1011" NoAttr [] [] = (Ok tt, w) /\
     log w = [EConnect None; EUpdate None; EThreadStart]
               ++ map construction_event (properties (self w))).
Proof.
  split; [| split].
  - destruct (construct_connects_and_updates_first 2700 6500 sample_kelvin
                Bulb "device-1" (Some "Lamp")
                (sample_handle "T1013" PyNone [Some TimeoutError] []))
      as (Hconnect & _ & _).
    apply (Hconnect TimeoutError (sample_handle "T1013" PyNone [] [])).
    reflexivity.
  - destruct (construct_connects_and_updates_first 2700 6500 sample_kelvin
                Switch "device-1" (Some "Lamp")
                (sample_handle "T1201" NoAttr []
                   [Fails ConnectionResetError]))
      as (_ & Hupdate & _).
    apply (Hupdate ConnectionResetError
             (sample_handle "T1201" NoAttr [] [Fails ConnectionResetError])
             (sample_handle "T1201" NoAttr [] [])); reflexivity.
  - destruct (construct_connects_and_updates_first 2700 6500 sample_kelvin
                Bulb "device-1" (Some "Lamp")
                (sample_handle "T1011" NoAttr [] []))
      as (_ & _ & Hboth).
    apply (Hboth (sample_handle "T1011" NoAttr [] [])
             (sample_handle "T1011" NoAttr [] [])); reflexivity.
Defined.

Lemma broken_pipe_recovery_witness :
  (exists w',
     poll_cycle sample_kelvin recovering_bulb = (Ok tt, w') /\
     in_sync sample_kelvin "color" (self w')) /\
  (exists w',
     poll_cycle sample_kelvin unreachable_bulb = (Ok tt, w') /\
     properties (self w') = properties (self unreachable_bulb)).
Proof.
  split.
  - pose (h1 := snd (update (eufy_dev (self recovering_bulb)))).
    pose (h2 := snd (connect h1)).
    pose (h3 := snd (update h2)).
    assert (Hu : update (eufy_dev (self recovering_bulb))
                 = (Some BrokenPipeError, h1)) by (vm_compute; reflexivity).
    assert (Hc : connect h1 = (None, h2)) by (vm_compute; reflexivity).
    assert (Hu' : update h2 = (None, h3)) by (vm_compute; reflexivity).
    destruct (broken_pipe_recovery sample_kelvin recovering_bulb h1 Hu)
      as [Hrecovered _].
    destruct (Hrecovered h2 h3 Hc Hu')
      as (w' & evs & Hrun & _ & _ & _ & _ & Hall).
    exists w'. split; [exact Hrun |].
    apply Hall. vm_compute. auto.
  - pose (h1 := snd (update (eufy_dev (self unreachable_bulb)))).
    pose (h2 := snd (connect h1)).
    pose (h3 := snd (update h2)).
    assert (Hu : update (eufy_dev (self unreachable_bulb))
                 = (Some BrokenPipeError, h1)) by (vm_compute; reflexivity).
    assert (Hc : connect h1 = (None, h2)) by (vm_compute; reflexivity).
    assert (Hu' : update h2 = (Some TimeoutError, h3))
      by (vm_compute; reflexivity).
    destruct (broken_pipe_recovery sample_kelvin unreachable_bulb h1 Hu)
      as [_ Hskipped].
    destruct (Hskipped TimeoutError h2 h3 eq_refl (or_intror (conj Hc Hu')))
      as (w' & calls & Hrun & Hprops & _).
    exists w'. split; [exact Hrun | exact Hprops].
Defined.

Lemma poll_leaves_only_by_uncaught_exception_witness :
  (exists w1,
     poll_cycle sample_kelvin unreachable_bulb = (Ok tt, w1) /\
     properties (self w1) = properties (self unreachable_bulb) /\
     poll sample_kelvin 3 unreachable_bulb = poll sample_kelvin 2 w1) /\
  (exists w1,
     poll sample_kelvin 3 resetting_bulb = (Raise ConnectionResetError, w1) /\
     properties (self w1) = properties (self resetting_bulb)) /\
  (exists w1,
     poll sample_kelvin 3 failing_reconnect_bulb = (Raise RuntimeError, w1) /\
     properties (self w1) = properties (self failing_reconnect_bulb)) /\
  (exists w1,
     poll sample_kelvin 3 failing_retry_bulb = (Raise RuntimeError, w1) /\
     properties (self w1) = properties (self failing_retry_bulb)) /\
  (exists pre calls,
     log (snd (poll sample_kelvin 2 faulty_bulb))
       = pre ++ ESleep _POLL_INTERVAL :: calls /\
     escapes RuntimeError calls).
Proof.
  split; [| split; [| split; [| split]]].
  - pose (h1 := snd (update (eufy_dev (self unreachable_bulb)))).
    pose (h2 := snd (connect h1)).
    pose (h3 := snd (update h2)).
    assert (Hu : update (eufy_dev (self unreachable_bulb))
                 = (Some BrokenPipeError, h1)) by (vm_compute; reflexivity).
    assert (Hc : connect h1 = (None, h2)) by (vm_compute; reflexivity).
    assert (Hu' : update h2 = (Some TimeoutError, h3))
      by (vm_compute; reflexivity).
    destruct (poll_leaves_only_by_uncaught_exception sample_kelvin 2
                unreachable_bulb) as (Hskip & _ & _ & _).
    exact (Hskip TimeoutError h1 h2 h3 Hu eq_refl
             (or_intror (conj Hc Hu'))).
  - pose (h1 := snd (update (eufy_dev (self resetting_bulb)))).
    assert (Hu : update (eufy_dev (self resetting_bulb))
                 = (Some ConnectionResetError, h1))
      by (vm_compute; reflexivity).
    destruct (poll_leaves_only_by_uncaught_exception sample_kelvin 2
                resetting_bulb) as (_ & Hescape & _ & _).
    exact (Hescape ConnectionResetError h1 Hu eq_refl).
  - pose (h1 := snd (update (eufy_dev (self failing_reconnect_bulb)))).
    pose (h2 := snd (connect h1)).
    assert (Hu : update (eufy_dev (self failing_reconnect_bulb))
                 = (Some BrokenPipeError, h1)) by (vm_compute; reflexivity).
    assert (Hc : connect h1 = (Some RuntimeError, h2))
      by (vm_compute; reflexivity).
    destruct (poll_leaves_only_by_uncaught_exception sample_kelvin 2
                failing_reconnect_bulb) as (_ & _ & Hrecovery & _).
    exact (Hrecovery RuntimeError h1 h2 h2 Hu eq_refl (or_introl Hc)).
  - pose (h1 := snd (update (eufy_dev (self failing_retry_bulb)))).
    pose (h2 := snd (connect h1)).
    pose (h3 := snd (update h2)).
    assert (Hu : update (eufy_dev (self failing_retry_bulb))
                 = (Some BrokenPipeError, h1)) by (vm_compute; reflexivity).
    assert (Hc : connect h1 = (None, h2)) by (vm_compute; reflexivity).
    assert (Hu' : update h2 = (Some RuntimeError, h3))
      by (vm_compute; reflexivity).
    destruct (poll_leaves_only_by_uncaught_exception sample_kelvin 2
                failing_retry_bulb) as (_ & _ & Hrecovery & _).
    exact (Hrecovery RuntimeError h1 h2 h3 Hu eq_refl
             (or_intror (conj Hc Hu'))).
  - assert (Hrun : poll sample_kelvin 2 faulty_bulb
                   = (Raise RuntimeError,
                      snd (poll sample_kelvin 2 faulty_bulb)))
      by (vm_compute; reflexivity).
    destruct (poll_leaves_only_by_uncaught_exception sample_kelvin 2
                faulty_bulb) as (_ & _ & _ & Hcause).
    exact (Hcause RuntimeError _ Hrun).
Defined.

(** C2, as stated, fails: a connection reset is an I/O error raised by the
    first [update] of a cycle, and it ends the loop instead of being
    skipped. *)
Lemma poll_ended_by_connection_reset :
  is_OSError ConnectionResetError = true /\
  fst (update (eufy_dev (self resetting_bulb))) = Some ConnectionResetError /\
  fst (poll sample_kelvin 1 resetting_bulb) = Raise ConnectionResetError /\
  fst (poll sample_kelvin 3 resetting_bulb) = Raise ConnectionResetError.
Proof. vm_compute. repeat split. Qed.


(** * Further properties of the code *)

(** ** Formatting integers outside the byte range *)

Lemma length_append (s t : string) :
  String.length (s +:+ t) = (String.length s + String.length t)%nat.
Proof.
  induction s as [| c s IH]; [reflexivity |].
  rewrite append_String. cbn [String.length]. now rewrite IH.
Qed.

Lemma append_empty_r (s : string) : s +:+ "" = s.
Proof.
  induction s as [| c s IH]; [reflexivity |].
  rewrite append_String. now rewrite IH.
Qed.

Lemma hex_digits_aux_length (fuel : nat) (n : Z) (acc : string) :
  (String.length acc < String.length (hex_digits_aux fuel n acc))%nat.
Proof.
  revert n acc. induction fuel as [| fuel IH]; intros n acc;
    cbn [hex_digits_aux].
  - cbn [String.length]. lia.
  - destruct (n <? 16).
    + cbn [String.length]. lia.
    + specialize (IH (n / 16) (String (hex_digit (n mod 16)) acc)).
      cbn [String.length] in IH. lia.
Qed.

Lemma hex_digit_nonzero (d : Z) :
  1 <= d <= 15 -> hex_digit d <> "0"%char.
Proof.
  intros Hd.
  assert (d = 1 \/ d = 2 \/ d = 3 \/ d = 4 \/ d = 5 \/ d = 6 \/ d = 7 \/
          d = 8 \/ d = 9 \/ d = 10 \/ d = 11 \/ d = 12 \/ d = 13 \/
          d = 14 \/ d = 15) as Hc by lia.
  repeat (destruct Hc as [-> | Hc]; [discriminate |]).
  subst d. discriminate.
Qed.

(** With enough fuel the first digit written is not a zero. *)
Lemma hex_digits_aux_head (fuel : nat) (n : Z) (acc : string) :
  1 <= n < 16 ^ (Z.of_nat fuel + 1) ->
  exists d s,
    hex_digits_aux fuel n acc = String (hex_digit d) s /\ 1 <= d <= 15.
Proof.
  revert n acc. induction fuel as [| fuel IH]; intros n acc Hn;
    cbn [hex_digits_aux].
  - change (16 ^ (Z.of_nat 0 + 1)) with 16 in Hn.
    exists n, acc. rewrite Z.mod_small by lia. split; [reflexivity | lia].
  - destruct (Z.ltb_spec n 16) as [Hlt | Hge].
    + exists n, acc. rewrite Z.mod_small by lia. split; [reflexivity | lia].
    + apply IH. split.
      * apply Z.div_le_lower_bound; lia.
      * apply Z.div_lt_upper_bound; [lia |].
        replace (Z.of_nat (S fuel) + 1) with (Z.succ (Z.of_nat fuel + 1))
          in Hn by lia.
        rewrite Z.pow_succ_r in Hn by lia. lia.
Qed.

Lemma format_X_fuel (n : Z) :
  1 <= n -> n < 16 ^ (Z.of_nat (Z.to_nat (Z.log2 n)) + 1).
Proof.
  intros Hn. pose proof (Z.log2_nonneg n) as Hlog.
  rewrite Z2Nat.id by exact Hlog.
  destruct (Z.log2_spec n ltac:(lia)) as [_ Hub].
  replace (Z.succ (Z.log2 n)) with (Z.log2 n + 1) in Hub by lia.
  eapply Z.lt_le_trans; [exact Hub |].
  apply Z.pow_le_mono_l. lia.
Qed.

(** The three shapes of ['{:02X}'.format(n)]: a sign first for a negative
    [n]; a zero and one digit below sixteen; otherwise at least two digits,
    the first of them not a zero. *)
Lemma format_02X_shape (n : Z) :
  (n < 0 /\ exists s, format_02X n = String "-"%char s) \/
  (0 <= n < 16 /\ format_02X n = String "0"%char (String (hex_digit n) "")) \/
  (16 <= n /\
   exists d c s,
     format_02X n = String (hex_digit d) (String c s) /\ 1 <= d <= 15).
Proof.
  destruct (Z_lt_le_dec n 0) as [Hneg | Hpos].
  - left. split; [exact Hneg |]. unfold format_02X.
    destruct (Z.ltb_spec n 0); [| lia]. eexists. reflexivity.
  - destruct (Z_lt_le_dec n 16) as [Hlt | Hge].
    + right; left. split; [lia |].
      rewrite format_02X_byte by lia. unfold hex_byte.
      rewrite Z.div_small by lia. rewrite Z.mod_small by lia. reflexivity.
    + right; right. split; [exact Hge |].
      unfold format_02X. destruct (Z.ltb_spec n 0); [lia |].
      unfold format_X.
      destruct (hex_digits_aux_head (Z.to_nat (Z.log2 n)) n ""
                  ltac:(split; [lia | apply format_X_fuel; lia]))
        as (d & s & Hds & Hd).
      assert (Hlen : (2 <= String.length
                             (hex_digits_aux (Z.to_nat (Z.log2 n)) n ""))%nat).
      { assert (Hlog : 4 <= Z.log2 n).
        { change 4 with (Z.log2 16). apply Z.log2_le_mono. lia. }
        destruct (Z.to_nat (Z.log2 n)) as [| fuel] eqn:Hfuel; [lia |].
        cbn [hex_digits_aux]. destruct (Z.ltb_spec n 16); [lia |].
        pose proof (hex_digits_aux_length fuel (n / 16)
                      (String (hex_digit (n mod 16)) "")) as Hl.
        cbn [String.length] in Hl. lia. }
      rewrite Hds in Hlen |- *.
      destruct s as [| c s]; cbn [String.length] in Hlen; [lia |].
      exists d, c, s. split; [| exact Hd].
      cbn [String.length]. reflexivity.
Qed.

(** A formatted integer followed by anything starts with two zeros only if
    the integer is zero. *)
Lemma format_02X_zeros (n : Z) (rest tail : string) :
  format_02X n +:+ rest = String "0"%char (String "0"%char tail) ->
  n = 0 /\ rest = tail.
Proof.
  destruct (format_02X_shape n)
    as [[_ (s & ->)] | [[Hn ->] | [_ (d & c & s & -> & Hd)]]];
    rewrite ?append_String, ?append_empty; intros E.
  - discriminate E.
  - injection E as Ed Er. split; [| exact Er].
    destruct (Z.eq_dec n 0) as [-> | Hne]; [reflexivity |].
    exfalso. apply (hex_digit_nonzero n); [lia | exact Ed].
  - injection E as Ed _. exfalso.
    apply (hex_digit_nonzero d Hd). exact Ed.
Qed.

Lemma format_color_sentinel (r g b : Z) :
  format_color r g b = "#000000" -> r = 0 /\ g = 0 /\ b = 0.
Proof.
  unfold format_color. rewrite append_String, append_empty.
  intros [= E].
  apply format_02X_zeros in E as [-> E].
  apply format_02X_zeros in E as [-> E].
  rewrite <- (append_empty_r (format_02X b)) in E.
  apply format_02X_zeros in E as [-> _]. auto.
Qed.

Lemma format_02X_length (n : Z) : (2 <= String.length (format_02X n))%nat.
Proof.
  destruct (format_02X_shape n)
    as [[Hn (s & E)] | [[Hn ->] | [_ (d & c & s & -> & _)]]];
    cbn [String.length]; try lia.
  revert E. unfold format_02X. destruct (Z.ltb_spec n 0); [| lia].
  intros _. cbn [String.length]. rewrite length_append.
  pose proof (hex_digits_aux_length (Z.to_nat (Z.log2 (- n))) (- n) "") as Hl.
  unfold format_X. cbn [String.length] in Hl. lia.
Qed.

Lemma format_02X_length_wide (n : Z) :
  255 < n -> (3 <= String.length (format_02X n))%nat.
Proof.
  intros Hn. unfold format_02X. destruct (Z.ltb_spec n 0); [lia |].
  rewrite length_append. unfold format_X.
  assert (Hlog : 8 <= Z.log2 n).
  { change 8 with (Z.log2 256). apply Z.log2_le_mono. lia. }
  destruct (Z.to_nat (Z.log2 n)) as [| [| fuel]] eqn:Hfuel; [lia | lia |].
  cbn [hex_digits_aux]. destruct (Z.ltb_spec n 16); [lia |].
  destruct (Z.ltb_spec (n / 16) 16) as [Hq | _].
  - pose proof (Z.div_le_lower_bound n 16 16 ltac:(lia) ltac:(lia)). lia.
  - pose proof (hex_digits_aux_length fuel (n / 16 / 16)
                  (String (hex_digit ((n / 16) mod 16))
                     (String (hex_digit (n mod 16)) ""))) as Hl.
    cbn [String.length] in Hl. lia.
Qed.

(** ** The sentinel and the encoding, for any integers *)

Section ColorFacts.
Context {H : Type} `{RemoteHandle H}.

(** X1. [color] returns the sentinel exactly for a handle without [colors],
    with [colors] equal to [None], or with the triple [(0, 0, 0)], whatever
    integers a triple holds; so these are exactly the handles whose
    [color_mode] is ["temperature"]: black is taken for no color. *)
Theorem color_sentinel_iff (h : H) :
  (color h = "#000000" <->
   colors h = NoAttr \/ colors h = PyNone \/ colors h = Rgb 0 0 0) /\
  (color_mode h = "temperature" <->
   colors h = NoAttr \/ colors h = PyNone \/ colors h = Rgb 0 0 0).
Proof.
  assert (Hcolor : color h = "#000000" <->
            colors h = NoAttr \/ colors h = PyNone \/ colors h = Rgb 0 0 0).
  { unfold color. destruct (colors h) as [| | r g b].
    - split; auto.
    - split; auto.
    - split.
      + intros E. apply format_color_sentinel in E as (-> & -> & ->). auto.
      + intros [E | [E | E]]; try discriminate E.
        injection E as -> -> ->. reflexivity. }
  split; [exact Hcolor |].
  rewrite <- Hcolor.
  destruct (color_mode_cases h) as [[Ec Em] | [Ec Em]]; rewrite Em.
  - tauto.
  - split; [discriminate | intros E; contradiction].
Qed.

(** X2. On triples of bytes [color] is injective: two handles that report
    different triples get different strings. *)
Theorem color_injective_on_bytes (h h' : H) (r g b r' g' b' : Z) :
  colors h = Rgb r g b -> colors h' = Rgb r' g' b' ->
  0 <= r <= 255 -> 0 <= g <= 255 -> 0 <= b <= 255 ->
  0 <= r' <= 255 -> 0 <= g' <= 255 -> 0 <= b' <= 255 ->
  (r, g, b) <> (r', g', b') ->
  color h <> color h'.
Proof.
  intros Hc Hc' Hr Hg Hb Hr' Hg' Hb' Hne E. apply Hne.
  unfold color in E. rewrite Hc, Hc' in E.
  pose proof (parse_format_color r g b Hr Hg Hb) as P.
  pose proof (parse_format_color r' g' b' Hr' Hg' Hb') as P'.
  rewrite E in P. congruence.
Qed.

(** X3. [color] does not clamp or reject: every triple gives at least
    seven characters, and a component above 255 gives more than seven. *)
Theorem color_length_unclamped (h : H) (r g b : Z) :
  colors h = Rgb r g b ->
  (7 <= String.length (color h))%nat /\
  (255 < r \/ 255 < g \/ 255 < b -> (7 < String.length (color h))%nat).
Proof.
  intros Hc. unfold color, format_color. rewrite Hc.
  rewrite append_String, append_empty. cbn [String.length].
  rewrite !length_append.
  pose proof (format_02X_length r). pose proof (format_02X_length g).
  pose proof (format_02X_length b).
  split; [lia |].
  intros [Hw | [Hw | Hw]]; apply format_02X_length_wide in Hw; lia.
Qed.
End ColorFacts.

Lemma color_sentinel_iff_witness :
  color (sample_handle "T1013" (Rgb 0 0 0) [] []) = "#000000" /\
  color_mode (sample_handle "T1013" (Rgb 0 0 0) [] []) = "temperature".
Proof.
  destruct (color_sentinel_iff (sample_handle "T1013" (Rgb 0 0 0) [] []))
    as [Hcolor Hmode].
  split; [apply Hcolor | apply Hmode]; right; right; reflexivity.
Defined.

Lemma color_injective_on_bytes_witness :
  color (sample_handle "T1013" (Rgb 255 0 0) [] [])
  <> color (sample_handle "T1013" (Rgb 0 0 255) [] []).
Proof.
  apply (color_injective_on_bytes
           (sample_handle "T1013" (Rgb 255 0 0) [] [])
           (sample_handle "T1013" (Rgb 0 0 255) [] [])
           255 0 0 0 0 255);
    try reflexivity; try lia.
  discriminate.
Defined.

Lemma color_length_unclamped_witness :
  (7 < String.length (color (sample_handle "T1013" (Rgb 256 0 0) [] [])))%nat.
Proof.
  destruct (color_length_unclamped
              (sample_handle "T1013" (Rgb 256 0 0) [] []) 256 0 0)
    as [_ Hwide]; [reflexivity |].
  apply Hwide. left. lia.
Defined.

(** ** More on construction *)

Section ConstructionMore.
Context {H : Type} `{RemoteHandle H}.
Variables MIN_TEMPERATURE MAX_TEMPERATURE : Z.
Variable relative_temp_to_kelvin : Z -> Z.

Local Abbreviation construct' :=
  (construct MIN_TEMPERATURE MAX_TEMPERATURE relative_temp_to_kelvin).

Ltac run_init :=
  unfold construct, EufySwitch, EufyBulb, EufySwitch__init__,
    EufyBulb__init__, EufyDevice__init__, Device__init__, add_property,
    extend_type, when, call_connect, call_update, emit, modify_self,
    get_self, bind, ret;
  cbn [self log eufy_dev properties _type description name dev_id
       set_eufy_dev set_description set_name set_type set_properties
       fst snd].

Ltac split_on_kind h :=
  destruct (String.eqb (kind h) "T1013") eqn:E13;
  destruct (String.eqb (kind h) "T1012") eqn:E12;
  repeat (first [rewrite E13 | rewrite E12 | progress cbn]).

(** The type list a constructor that returns has built. *)
Lemma construct_success_type cls _id nm h h1 h2 :
  connect h = (None, h1) -> update h1 = (None, h2) ->
  _type (self (snd (construct' cls _id nm h)))
    = match cls with
      | Switch => ["OnOffSwitch"; "SmartPlug"]
      | Bulb =>
          ["OnOffSwitch"; "Light"]
            ++ (if is_color h2 then ["ColorControl"] else [])
            ++ (if is_variable_color_temp h2 then ["ColorControl"] else [])
      end.
Proof.
  intros Hc Hu. destruct cls; run_init; rewrite Hc;
    cbn [self log eufy_dev set_eufy_dev]; rewrite Hu;
    cbn [self log eufy_dev set_eufy_dev properties set_properties
         set_type _type].
  - reflexivity.
  - unfold is_variable_color_temp, is_color.
    split_on_kind h2; reflexivity.
Qed.

(** X4. The dictionary of a constructed device lists its properties in the
    order color, colorTemperature, colorMode, level, on (the order in which
    [poll] refreshes them), and a bulb has colorMode exactly when it has
    color: the second test of line 137 never decides. *)
Theorem property_order cls _id nm h w :
  construct' cls _id nm h = (Ok tt, w) ->
  dict_keys (properties (self w))
    = match cls with
      | Switch => ["on"]
      | Bulb =>
          (if is_color (eufy_dev (self w)) then ["color"] else [])
            ++ (if is_variable_color_temp (eufy_dev (self w))
                then ["colorTemperature"] else [])
            ++ (if is_color (eufy_dev (self w)) then ["colorMode"] else [])
            ++ ["level"; "on"]
      end.
Proof.
  intros Hok.
  destruct (construct_returned MIN_TEMPERATURE MAX_TEMPERATURE
              relative_temp_to_kelvin cls _id nm h w Hok) as [-> _].
  destruct cls; unfold class_properties, switch_properties, bulb_properties,
    is_variable_color_temp, is_color.
  - reflexivity.
  - split_on_kind (eufy_dev (self w)); reflexivity.
Qed.

(** X5. The capability types of a constructed device: a switch is an
    [OnOffSwitch] and a [SmartPlug]; a bulb is an [OnOffSwitch] and a
    [Light], followed by one [ColorControl] if it is color-changing and one
    more if it is color-temperature-changing, so that a bulb of kind
    ["T1013"] carries [ColorControl] twice. *)
Theorem type_list_by_model cls _id nm h w :
  construct' cls _id nm h = (Ok tt, w) ->
  _type (self w)
    = match cls with
      | Switch => ["OnOffSwitch"; "SmartPlug"]
      | Bulb =>
          ["OnOffSwitch"; "Light"]
            ++ (if is_color (eufy_dev (self w))
                then ["ColorControl"] else [])
            ++ (if is_variable_color_temp (eufy_dev (self w))
                then ["ColorControl"] else [])
      end /\
  (cls = Bulb -> kind (eufy_dev (self w)) = "T1013" ->
   _type (self w)
     = ["OnOffSwitch"; "Light"; "ColorControl"; "ColorControl"]).
Proof.
  intros Hok.
  assert (Htype : _type (self w)
            = match cls with
              | Switch => ["OnOffSwitch"; "SmartPlug"]
              | Bulb =>
                  ["OnOffSwitch"; "Light"]
                    ++ (if is_color (eufy_dev (self w))
                        then ["ColorControl"] else [])
                    ++ (if is_variable_color_temp (eufy_dev (self w))
                        then ["ColorControl"] else [])
              end).
  { destruct (connect h) as [[e |] h1] eqn:Hc.
    - destruct (construct_connect_fails MIN_TEMPERATURE MAX_TEMPERATURE
                  relative_temp_to_kelvin cls _id nm h e h1 Hc)
        as (w' & Hr & _). congruence.
    - destruct (update h1) as [[e |] h2] eqn:Hu.
      + destruct (construct_update_fails MIN_TEMPERATURE MAX_TEMPERATURE
                    relative_temp_to_kelvin cls _id nm h e h1 h2 Hc Hu)
          as (w' & Hr & _). congruence.
      + pose proof (construct_success_type cls _id nm h h1 h2 Hc Hu) as Ht.
        destruct (construct_success MIN_TEMPERATURE MAX_TEMPERATURE
                    relative_temp_to_kelvin cls _id nm h h1 h2 Hc Hu)
          as (w' & Hr & Hh & _).
        assert (w' = w) as -> by congruence.
        rewrite Hok in Ht. cbn [snd] in Ht. rewrite Hh. exact Ht. }
  split; [exact Htype |].
  intros -> Hkind. rewrite Htype.
  unfold is_color, is_variable_color_temp. rewrite Hkind. reflexivity.
Qed.

(** X6. Whether or not the constructor returns, the object keeps the
    identifier it was given, its description is the model identifier the
    handle had before [connect], and its name is the name given, or the
    description when the name given is [None] or empty. *)
Theorem name_defaults_to_description cls _id nm h :
  let w :=
    snd (construct MIN_TEMPERATURE MAX_TEMPERATURE relative_temp_to_kelvin
           cls _id nm h) in
  dev_id (self w) = _id /\
  description (self w) = kind h /\
  name (self w)
    = match nm with
      | Some s => if String.eqb s "" then kind h else s
      | None => kind h
      end.
Proof.
  assert (Hname : match nm with
                  | Some s => if truthy nm then s else kind h
                  | None => kind h
                  end
                  = match nm with
                    | Some s => if String.eqb s "" then kind h else s
                    | None => kind h
                    end).
  { destruct nm as [s |]; [| reflexivity]. cbn [truthy].
    destruct (String.eqb s ""); reflexivity. }
  cbv zeta. rewrite <- Hname.
  destruct cls; run_init;
    destruct (connect h) as [[e |] h1];
    cbn [self log eufy_dev set_eufy_dev snd dev_id description name];
    auto;
    destruct (update h1) as [[e |] h2];
    cbn [self log eufy_dev set_eufy_dev snd dev_id description name
         properties set_properties set_type _type];
    auto.
  unfold is_variable_color_temp, is_color.
  split_on_kind h2; auto.
Qed.

(** X7. Every property of a constructed device is stored under its own
    name; a property whose metadata declares the type ['string'] holds a
    string; and when the metadata carries an enumeration the value is one
    of its members. *)
Theorem properties_match_metadata cls _id nm h w key p :
  construct' cls _id nm h = (Ok tt, w) ->
  dict_get key (properties (self w)) = Some p ->
  prop_name p = key /\
  (d_type (prop_description p) = "string" ->
   exists s, prop_value p = VStr s) /\
  (forall enum,
     d_enum (prop_description p) = Some enum ->
     exists s, prop_value p = VStr s /\ In s enum).
Proof.
  intros Hok.
  destruct (construct_returned MIN_TEMPERATURE MAX_TEMPERATURE
              relative_temp_to_kelvin cls _id nm h w Hok) as [-> _].
  assert (Hmode : In (color_mode (eufy_dev (self w)))
                    ["color"; "temperature"]).
  { destruct (color_mode_cases (eufy_dev (self w))) as [[_ ->] | [_ ->]];
      cbn; auto. }
  destruct cls; unfold class_properties, switch_properties,
    bulb_properties, mk_property.
  - cbn. destruct (String.eqb_spec key "on") as [-> |]; [| discriminate].
    intros [= <-]. cbn. repeat split; discriminate.
  - destruct (is_color (eufy_dev (self w)));
      destruct (is_variable_color_temp (eufy_dev (self w)));
      cbn [app andb dict_get];
      repeat
        match goal with
        | |- context [String.eqb key ?k] =>
            destruct (String.eqb_spec key k) as [-> |]
        end;
      intros [= <-] || discriminate; cbn;
      (split; [reflexivity |]);
      (split; [intros Htype; (discriminate Htype || eauto) |]);
      intros enum [= <-] || discriminate; eauto.
Qed.
End ConstructionMore.

(** ** More on the polling loop *)

Lemma values_only_refl {H : Type} (d : Device H) : values_only d d.
Proof. unfold values_only. auto. Qed.

Lemma values_only_trans {H : Type} (d1 d2 d3 : Device H) :
  values_only d1 d2 -> values_only d2 d3 -> values_only d1 d3.
Proof.
  unfold values_only. intros (A1 & B1 & C1 & D1 & E1) (A2 & B2 & C2 & D2 & E2).
  repeat split; congruence.
Qed.

Lemma values_only_set_eufy_dev {H : Type} (h : H) (d : Device H) :
  values_only d (set_eufy_dev h d).
Proof. unfold values_only. cbn. auto. Qed.

(** Storing a new value in a property changes nothing else in the
    dictionary. *)
Lemma frame_dict_set (key : string) (v : value) (p : Property)
    (d : list (string * Property)) :
  dict_get key d = Some p ->
  map property_frame (dict_set key (set_value v p) d) = map property_frame d.
Proof.
  induction d as [| [k' p'] d IH]; cbn [dict_get dict_set];
    [discriminate |].
  destruct (String.eqb_spec key k') as [-> | Hne].
  - intros [= ->]. reflexivity.
  - intros Hget. cbn [map]. f_equal. apply IH, Hget.
Qed.

Lemma filter_refresh_events (p : event -> bool) (evs : list event) :
  (forall ev, is_refresh_event ev = true -> p ev = false) ->
  forallb is_refresh_event evs = true -> List.filter p evs = [].
Proof.
  intros Hp. induction evs as [| ev evs IH]; cbn [forallb List.filter];
    [reflexivity |].
  intros Hall. apply andb_prop in Hall as [Hev Hrest].
  rewrite (Hp ev Hev). apply IH, Hrest.
Qed.

Section PollMore.
Context {H : Type} `{RemoteHandle H}.
Variable relative_temp_to_kelvin : Z -> Z.

Local Abbreviation prop_update' := (prop_update relative_temp_to_kelvin).
Local Abbreviation refresh_all' := (refresh_all relative_temp_to_kelvin).
Local Abbreviation poll_cycle' := (poll_cycle relative_temp_to_kelvin).
Local Abbreviation poll' := (poll relative_temp_to_kelvin).

(** One refresh: it returns, it logs one [ERefresh] (and perhaps a
    notification), and it changes a value at most. *)
Lemma prop_update_frame (key : string) (w : World H) :
  exists w' evs,
    prop_update' key w = (Ok tt, w') /\
    values_only (self w) (self w') /\
    log w' = log w ++ evs /\
    forallb is_refresh_event evs = true /\
    List.filter is_refresh_start evs = [ERefresh key].
Proof.
  unfold prop_update, bind, emit, get_self, modify_self, ret.
  cbn [self log].
  destruct (dict_get key (properties (self w))) as [p |] eqn:Hget;
    [destruct (read_current_value relative_temp_to_kelvin key
                 (eufy_dev (self w))) as [v |];
     [destruct (value_eqb v (prop_value p)) |] |].
  2: { eexists _, [ERefresh key; ENotify key v].
       split; [reflexivity |]. cbn [self log]. split; [| split].
       - unfold values_only.
         cbn [dev_id name description _type properties set_properties].
         repeat split. now apply frame_dict_set.
       - now rewrite <- app_assoc.
       - split; reflexivity. }
  all: eexists _, [ERefresh key]; split; [reflexivity |];
    cbn [self log]; split; [apply values_only_refl |];
    split; [reflexivity |]; split; reflexivity.
Qed.

Lemma for_each_frame (ks : list string) (w : World H) :
  exists w' evs,
    for_each ks prop_update' w = (Ok tt, w') /\
    values_only (self w) (self w') /\
    log w' = log w ++ evs /\
    forallb is_refresh_event evs = true /\
    List.filter is_refresh_start evs = map ERefresh ks.
Proof.
  revert w. induction ks as [| k ks IH]; intros w.
  - exists w, []. cbn. rewrite app_nil_r.
    repeat split; auto using values_only_refl.
  - destruct (prop_update_frame k w)
      as (w1 & e1 & Hrun1 & Hv1 & Hl1 & Hr1 & Hs1).
    destruct (IH w1) as (w2 & e2 & Hrun2 & Hv2 & Hl2 & Hr2 & Hs2).
    exists w2, (e1 ++ e2). split; [| split; [| split; [| split]]].
    + cbn [for_each]. unfold bind. now rewrite Hrun1.
    + eapply values_only_trans; eassumption.
    + rewrite Hl2, Hl1. now rewrite app_assoc.
    + rewrite forallb_app, Hr1, Hr2. reflexivity.
    + rewrite List.filter_app, Hs1, Hs2. reflexivity.
Qed.

(** Every cycle: which calls it makes and where it ends. *)
Lemma poll_cycle_shapes (w : World H) :
  exists h' calls,
    call_shape calls /\
    ((last calls = Some (EUpdate None) /\
      poll_cycle' w = refresh_all' (after_calls h' calls w)) \/
     (last calls <> Some (EUpdate None) /\
      exists r, poll_cycle' w = (r, after_calls h' calls w) /\
                (r = Ok tt \/ exists e, r = Raise e))).
Proof.
  destruct (update (eufy_dev (self w))) as [[e |] h1] eqn:Hu.
  - destruct (is_BrokenPipeError e) eqn:Hbp.
    + apply BrokenPipeError_inv in Hbp. subst e.
      destruct (connect h1) as [[e |] h2] eqn:Hc.
      * exists h2, [EUpdate (Some BrokenPipeError); EConnect (Some e)].
        split; [right; left; eauto |]. right. split; [discriminate |].
        destruct (is_OSError e) eqn:Hos.
        -- eexists. split; [eapply cycle_skipped_connect; eassumption |].
           auto.
        -- eexists. split; [eapply cycle_escape_connect; eassumption |].
           eauto.
      * destruct (update h2) as [[e |] h3] eqn:Hu'.
        -- exists h3, [EUpdate (Some BrokenPipeError); EConnect None;
                       EUpdate (Some e)].
           split; [right; right; eauto |]. right. split; [discriminate |].
           destruct (is_OSError e) eqn:Hos.
           ++ eexists. split; [eapply cycle_skipped_update; eassumption |].
              auto.
           ++ eexists. split; [eapply cycle_escape_update; eassumption |].
              eauto.
        -- exists h3, [EUpdate (Some BrokenPipeError); EConnect None;
                       EUpdate None].
           split; [right; right; eauto |]. left. split; [reflexivity |].
           eapply cycle_recovered; eassumption.
    + exists h1, [EUpdate (Some e)].
      split; [left; eauto |]. right. split; [discriminate |].
      eexists. split; [eapply cycle_escape_first_update; eassumption |].
      eauto.
  - exists h1, [EUpdate None].
    split; [left; eauto |]. left. split; [reflexivity |].
    eapply cycle_first_update_ok; eassumption.
Qed.

(** A cycle in full: the result, the device and the events. *)
Lemma poll_cycle_frame (w : World H) :
  exists r w' calls refreshes,
    poll_cycle' w = (r, w') /\
    values_only (self w) (self w') /\
    log w' = log w ++ ESleep _POLL_INTERVAL :: calls ++ refreshes /\
    call_shape calls /\
    forallb is_refresh_event refreshes = true /\
    (last calls = Some (EUpdate None) ->
     r = Ok tt /\
     List.filter is_refresh_start refreshes
       = map ERefresh (dict_keys (properties (self w)))) /\
    (last calls <> Some (EUpdate None) -> refreshes = []).
Proof.
  destruct (poll_cycle_shapes w)
    as (h' & calls & Hshape & [[Hlast Hrun] | [Hlast (r & Hrun & _)]]).
  - unfold refresh_all, bind, get_self in Hrun.
    destruct (for_each_frame
                (dict_keys (properties (self (after_calls h' calls w))))
                (after_calls h' calls w))
      as (w' & evs & Hfor & Hv & Hl & Hr & Hs).
    rewrite Hfor in Hrun.
    exists (Ok tt), w', calls, evs.
    split; [exact Hrun |]. split; [| split; [| split; [| split; [| split]]]].
    + eapply values_only_trans; [| exact Hv].
      apply values_only_set_eufy_dev.
    + rewrite Hl. unfold after_calls. cbn [log].
      rewrite <- app_assoc. reflexivity.
    + exact Hshape.
    + exact Hr.
    + intros _. split; [reflexivity | exact Hs].
    + intros Hne. contradiction.
  - exists r, (after_calls h' calls w), calls, [].
    split; [exact Hrun |]. split; [| split; [| split; [| split; [| split]]]].
    + apply values_only_set_eufy_dev.
    + unfold after_calls. cbn [log]. now rewrite app_nil_r.
    + exact Hshape.
    + reflexivity.
    + intros Heq. contradiction.
    + reflexivity.
Qed.
(** X8. The handle calls of one cycle: [update] comes first; [connect] is
    called at most once, and only after that [update] raised
    [BrokenPipeError]; [update] is called a second time only after that
    [connect] succeeded. So a cycle makes three handle calls at most, all
    of them after the sleep and before the first refresh. *)
Theorem cycle_calls_bounded (w : World H) :
  exists calls refreshes,
    log (snd (poll_cycle' w))
      = log w ++ ESleep _POLL_INTERVAL :: calls ++ refreshes /\
    call_shape calls /\
    forallb is_refresh_event refreshes = true.
Proof.
  destruct (poll_cycle_frame w)
    as (r & w' & calls & refreshes & Hrun & _ & Hlog & Hshape & Hr & _).
  exists calls, refreshes. rewrite Hrun. cbn [snd]. auto.
Qed.

(** X9. Whatever happens in any number of cycles, [poll] leaves the
    identifier, name, description and type list of the device alone, and
    the dictionary keeps its keys, their order, and the name and metadata
    of every property: only values (and the handle) change. *)
Theorem poll_changes_values_only (n : nat) (w : World H) :
  values_only (self w) (self (snd (poll' n w))).
Proof.
  revert w. induction n as [| n IH]; intros w; cbn [poll].
  - apply values_only_refl.
  - unfold bind.
    destruct (poll_cycle_frame w)
      as (r & w' & calls & refreshes & Hrun & Hv & _).
    rewrite Hrun. destruct r as [[] | e].
    + eapply values_only_trans; [exact Hv | apply IH].
    + exact Hv.
Qed.

Lemma cycle_sleeps_once (calls refreshes : list event) :
  call_shape calls ->
  forallb is_refresh_event refreshes = true ->
  List.filter is_sleep (ESleep _POLL_INTERVAL :: calls ++ refreshes)
    = [ESleep _POLL_INTERVAL].
Proof.
  intros Hshape Hr. cbn [List.filter is_sleep]. f_equal.
  rewrite List.filter_app.
  rewrite (filter_refresh_events is_sleep refreshes);
    [| intros [] E; (discriminate E || reflexivity) | exact Hr].
  rewrite app_nil_r.
  destruct Hshape as [(r & ->) | [(r & ->) | (r & ->)]]; reflexivity.
Qed.

(** X10. In [n] cycles the loop sleeps once per cycle begun, always for
    [_POLL_INTERVAL] seconds: at most [n] times, and exactly [n] times if
    no exception has left the loop. *)
Theorem poll_sleeps_once_per_cycle (n : nat) (w : World H) :
  exists evs k,
    log (snd (poll' n w)) = log w ++ evs /\
    List.filter is_sleep evs = repeat (ESleep _POLL_INTERVAL) k /\
    (k <= n)%nat /\
    (fst (poll' n w) = Ok tt -> k = n).
Proof.
  revert w. induction n as [| n IH]; intros w; cbn [poll].
  - exists [], 0%nat. unfold ret. cbn. rewrite app_nil_r. auto.
  - unfold bind.
    destruct (poll_cycle_frame w)
      as (r & w' & calls & refreshes & Hrun & _ & Hlog & Hshape & Hr & _).
    pose proof (cycle_sleeps_once calls refreshes Hshape Hr) as Hone.
    rewrite Hrun. destruct r as [[] | e].
    + destruct (IH w') as (evs & k & Hl & Hs & Hk & Hok).
      exists ((ESleep _POLL_INTERVAL :: calls ++ refreshes) ++ evs), (S k).
      split; [| split; [| split]].
      * rewrite Hl, Hlog. now rewrite <- app_assoc.
      * rewrite List.filter_app, Hone, Hs. reflexivity.
      * lia.
      * intros E. f_equal. apply Hok, E.
    + exists (ESleep _POLL_INTERVAL :: calls ++ refreshes), 1%nat.
      cbn [fst snd]. split; [exact Hlog |]. split; [exact Hone |].
      split; [lia | discriminate].
Qed.

(** X11. A cycle whose [update] succeeds, at once or after one reconnect,
    ends normally and refreshes every property of the dictionary exactly
    once, in dictionary order. *)
Theorem refresh_in_dictionary_order (w : World H) (h' : H) :
  update (eufy_dev (self w)) = (None, h') \/
  (exists h1 h2,
     update (eufy_dev (self w)) = (Some BrokenPipeError, h1) /\
     connect h1 = (None, h2) /\ update h2 = (None, h')) ->
  exists w' calls refreshes,
    poll_cycle' w = (Ok tt, w') /\
    eufy_dev (self w') = h' /\
    log w' = log w ++ ESleep _POLL_INTERVAL :: calls ++ refreshes /\
    forallb is_handle_call calls = true /\
    forallb is_refresh_event refreshes = true /\
    List.filter is_refresh_start refreshes
      = map ERefresh (dict_keys (properties (self w))).
Proof.
  intros Hcalls.
  assert (exists calls,
            forallb is_handle_call calls = true /\
            poll_cycle' w = refresh_all' (after_calls h' calls w))
    as (calls & Hhc & Hrun).
  { destruct Hcalls as [Hu | (h1 & h2 & Hu & Hc & Hu')].
    - eexists. split; [| eapply cycle_first_update_ok; exact Hu].
      reflexivity.
    - eexists. split; [| eapply cycle_recovered; eassumption].
      reflexivity. }
  unfold refresh_all, bind, get_self in Hrun.
  destruct (for_each_frame
              (dict_keys (properties (self (after_calls h' calls w))))
              (after_calls h' calls w))
    as (w' & evs & Hfor & _ & Hl & Hr & Hs).
  rewrite Hfor in Hrun.
  destruct (for_each_refreshed relative_temp_to_kelvin
              (dict_keys (properties (self (after_calls h' calls w))))
              (after_calls h' calls w))
    as (w'' & Hfor' & [Hh _ _ _ _]).
  assert (w'' = w') as -> by congruence.
  exists w', calls, evs. split; [exact Hrun |].
  split; [exact Hh |]. split; [| auto].
  rewrite Hl. unfold after_calls. cbn [log].
  rewrite <- app_assoc. reflexivity.
Qed.
End PollMore.

(** ** The further theorems at sample devices *)

Lemma property_order_witness :
  dict_keys
    (properties
       (self (snd (sample_construct Bulb "T1013" (Rgb 255 0 0) [] []))))
    = ["color"; "colorTemperature"; "colorMode"; "level"; "on"].
Proof.
  refine (property_order 2700 6500 sample_kelvin Bulb "device-1"
            (Some "Lamp") (sample_handle "T1013" (Rgb 255 0 0) [] [])
            (snd (sample_construct Bulb "T1013" (Rgb 255 0 0) [] [])) _).
  vm_compute. reflexivity.
Defined.

Lemma type_list_by_model_witness :
  _type (self (snd (sample_construct Bulb "T1013" (Rgb 255 0 0) [] [])))
    = ["OnOffSwitch"; "Light"; "ColorControl"; "ColorControl"].
Proof.
  assert (Hrun : construct 2700 6500 sample_kelvin Bulb "device-1"
                   (Some "Lamp") (sample_handle "T1013" (Rgb 255 0 0) [] [])
                 = (Ok tt,
                    snd (sample_construct Bulb "T1013" (Rgb 255 0 0) [] [])))
    by (vm_compute; reflexivity).
  destruct (type_list_by_model 2700 6500 sample_kelvin Bulb "device-1"
              (Some "Lamp") (sample_handle "T1013" (Rgb 255 0 0) [] [])
              (snd (sample_construct Bulb "T1013" (Rgb 255 0 0) [] []))
              Hrun) as [_ Htwice].
  apply Htwice; reflexivity.
Defined.

Lemma properties_match_metadata_witness :
  exists s,
    VStr (color_mode (sample_handle "T1013" (Rgb 255 0 0) [] [])) = VStr s /\
    In s ["color"; "temperature"].
Proof.
  assert (Hrun : construct 2700 6500 sample_kelvin Bulb "device-1"
                   (Some "Lamp") (sample_handle "T1013" (Rgb 255 0 0) [] [])
                 = (Ok tt,
                    snd (sample_construct Bulb "T1013" (Rgb 255 0 0) [] [])))
    by (vm_compute; reflexivity).
  assert (Hget : dict_get "colorMode"
                   (properties
                      (self (snd (sample_construct Bulb "T1013"
                                    (Rgb 255 0 0) [] []))))
                 = Some (snd (mk_property "colorMode" colorMode_description
                                (VStr (color_mode
                                         (sample_handle "T1013"
                                            (Rgb 255 0 0) [] []))))))
    by (vm_compute; reflexivity).
  destruct (properties_match_metadata 2700 6500 sample_kelvin Bulb
              "device-1" (Some "Lamp")
              (sample_handle "T1013" (Rgb 255 0 0) [] [])
              (snd (sample_construct Bulb "T1013" (Rgb 255 0 0) [] []))
              "colorMode" _ Hrun Hget) as (_ & _ & Henum).
  exact (Henum ["color"; "temperature"] eq_refl).
Defined.

Lemma poll_sleeps_once_per_cycle_witness :
  exists evs,
    log (snd (poll sample_kelvin 2 unreachable_bulb))
      = log unreachable_bulb ++ evs /\
    List.filter is_sleep evs
      = [ESleep _POLL_INTERVAL; ESleep _POLL_INTERVAL].
Proof.
  destruct (poll_sleeps_once_per_cycle sample_kelvin 2 unreachable_bulb)
    as (evs & k & Hlog & Hsleeps & _ & Hall).
  assert (Hok : fst (poll sample_kelvin 2 unreachable_bulb) = Ok tt)
    by (vm_compute; reflexivity).
  rewrite (Hall Hok) in Hsleeps.
  exists evs. split; [exact Hlog | exact Hsleeps].
Defined.

Lemma refresh_in_dictionary_order_witness :
  exists w' calls refreshes,
    poll_cycle sample_kelvin recovering_bulb = (Ok tt, w') /\
    log w' = log recovering_bulb
               ++ ESleep _POLL_INTERVAL :: calls ++ refreshes /\
    List.filter is_refresh_start refreshes
      = map ERefresh ["color"; "colorTemperature"; "colorMode"; "level"; "on"].
Proof.
  pose (h1 := snd (update (eufy_dev (self recovering_bulb)))).
  pose (h2 := snd (connect h1)).
  pose (h3 := snd (update h2)).
  assert (Hu : update (eufy_dev (self recovering_bulb))
               = (Some BrokenPipeError, h1)) by (vm_compute; reflexivity).
  assert (Hc : connect h1 = (None, h2)) by (vm_compute; reflexivity).
  assert (Hu' : update h2 = (None, h3)) by (vm_compute; reflexivity).
  destruct (refresh_in_dictionary_order sample_kelvin recovering_bulb h3
              (or_intror (ex_intro _ h1 (ex_intro _ h2
                 (conj Hu (conj Hc Hu'))))))
    as (w' & calls & refreshes & Hrun & _ & Hlog & _ & _ & Horder).
  exists w', calls, refreshes.
  split; [exact Hrun |]. split; [exact Hlog |]. exact Horder.
Defined.
